(** * pyRTE-RRTMGP example notebooks

    A shallow embedding of the two example notebooks shipped with
    pyRTE-RRTMGP (the quick start and the all-sky example), both stored in
    [examples/pyRTE-quick-start.ipynb].

    The notebooks are straight-line Python scripts over [xarray] datasets.
    Datasets are mutable objects that several names may alias
    ([optical_props["surface_emissivity"] = 0.98], [add_to]), so the scripts
    are embedded in a state-and-exception monad over a heap of datasets; every
    call into [pyrte_rrtmgp] or [xarray] is also recorded in a trace, which is
    what the statements about the order of the steps are about.

    Numbers are IEEE binary64 values (Python [float], numpy [float64]).  The
    plotting cells are guarded by [do_plots = False] and never run; they are
    left out, as are [print] and the dask progress bar. *)

From Stdlib Require Import Floats.
From stdpp Require Import gmap strings list.

Set Warnings "-inexact-float".

(** ** numpy arrays and xarray data *)

(** A numpy array seen through its shape and its indexing operator
    [a[i, j, ...]]; [item] is only looked at inside the shape. *)
Record ndarray := NDArray { shape : list nat; item : list nat -> float }.

(** The boolean array an element-wise comparison returns. *)
Record boolarray := BoolArray { bshape : list nat; bitem : list nat -> bool }.

(** [xarray.DataArray]: an array with named dimensions. *)
Record DataArray := mkDataArray { dims : list string; values : ndarray }.

(** [xarray.Dataset]: its data variables by name. *)
Abbreviation Dataset := (gmap string DataArray).

(** What [ds[name] = 0.98] stores: a variable without dimensions. *)
Definition scalar (v : float) : DataArray :=
  mkDataArray [] (NDArray [] (fun _ => v)).

(** [a.T] on a numpy array reverses the axes. *)
Definition transpose (a : ndarray) : ndarray :=
  NDArray (rev (shape a)) (fun idx => item a (rev idx)).

(** [da.T] on a [DataArray] reverses the dimensions. *)
Definition T (da : DataArray) : DataArray :=
  mkDataArray (rev (dims da)) (transpose (values da)).

(** The length of every named dimension of a variable. *)
Definition dim_sizes (da : DataArray) : list (string * nat) :=
  zip (dims da) (shape (values da)).

Definition all_dim_sizes (ds : Dataset) : list (string * nat) :=
  flat_map (fun kv => dim_sizes kv.2) (map_to_list ds).

(** The length of dimension [name], when a variable of [ds] has it
    ([ds.sizes]). *)
Definition dim_size (ds : Dataset) (name : string) : option nat :=
  snd <$> find (fun p : string * nat => bool_decide (p.1 = name)) (all_dim_sizes ds).

(** An integer as numpy converts it when it meets binary64 numbers. *)
Definition float_of_nat (n : nat) : float :=
  PrimFloat.of_uint63 (Uint63.of_Z (Z.of_nat n)).

(** The index xarray makes up for a dimension of length [n] that has no
    coordinate: [0, 1, ..., n - 1] along that dimension. *)
Definition dimension_index (name : string) (n : nat) : DataArray :=
  mkDataArray [name] (NDArray [n] (fun idx => float_of_nat (hd 0 idx))).

(** All index tuples of a shape, in row-major order. *)
Fixpoint indices (sh : list nat) : list (list nat) :=
  match sh with
  | [] => [[]]
  | n :: sh' => flat_map (fun i => map (cons i) (indices sh')) (seq 0 n)
  end.

(** [b.all()]. *)
Definition np_all (b : boolarray) : bool :=
  forallb (bitem b) (indices (bshape b)).

(** ** Python exceptions and results *)

Inductive exn :=
| KeyError (key : string)
| ValueError
| MergeError
| AssertionError
| ReferenceError.

Definition result (A : Type) : Type := exn + A.

Definition rbind {A B} (r : result A) (f : A -> result B) : result B :=
  match r with
  | inl e => inl e
  | inr a => f a
  end.

Notation "'let?' x ':=' r 'in' k" := (rbind r (fun x => k))
  (at level 10, x name, r at level 100, k at level 200).

(** [ds[key]] for a name without a dot, as all names of the notebooks are:
    the variable of that name; failing that, for the name of a dimension,
    the index xarray makes up for it; for any other name a [KeyError]. *)
Definition getitem (ds : Dataset) (key : string) : result DataArray :=
  match ds !! key with
  | Some da => inr da
  | None =>
      match dim_size ds key with
      | Some n => inr (dimension_index key n)
      | None => inl (KeyError key)
      end
  end.

(** The [assert] statement. *)
Definition assert_ (b : bool) : result unit :=
  if b then inr tt else inl AssertionError.

(** ** numpy broadcasting and [np.isclose] *)

Definition broadcast_dim (a b : nat) : option nat :=
  if decide (a = b) then Some a
  else if decide (a = 1) then Some b
  else if decide (b = 1) then Some a
  else None.

(** Shapes are matched from the last axis backwards; both arguments here are
    reversed shapes. *)
Fixpoint broadcast_rev (s t : list nat) : option (list nat) :=
  match s, t with
  | [], _ => Some t
  | _, [] => Some s
  | a :: s', b :: t' =>
      match broadcast_dim a b, broadcast_rev s' t' with
      | Some d, Some r => Some (d :: r)
      | _, _ => None
      end
  end.

Definition broadcast_shapes (s t : list nat) : option (list nat) :=
  match broadcast_rev (rev s) (rev t) with
  | Some r => Some (rev r)
  | None => None
  end.

(** The index an operand of (reversed) shape [s] is read at for the
    (reversed) index [idx] of the result: an axis of length 1 is repeated. *)
Fixpoint operand_index_rev (s idx : list nat) : list nat :=
  match s, idx with
  | a :: s', i :: idx' =>
      (if decide (a = 1) then 0 else i) :: operand_index_rev s' idx'
  | _, _ => []
  end.

Definition operand_index (s idx : list nat) : list nat :=
  rev (operand_index_rev (rev s) (rev idx)).

(** numpy's default relative tolerance. *)
Definition default_rtol : float := 1e-5%float.

Definition isfinite (y : float) : bool :=
  negb (PrimFloat.is_nan y || PrimFloat.is_infinity y).

(** One element of [np.isclose(a, b, rtol, atol)] with [equal_nan=False]:
    [(abs(x - y) <= atol + rtol * abs(y)) & isfinite(y) | (x == y)]. *)
Definition isclose (x y rtol atol : float) : bool :=
  (PrimFloat.leb (PrimFloat.abs (x - y)) (atol + rtol * PrimFloat.abs y)
   && isfinite y)
  || PrimFloat.eqb x y.

(** [np.isclose(a, b, atol=atol)]: the relative tolerance keeps its default;
    the operands are converted to plain arrays, so the dimension names play
    no role; shapes that do not broadcast raise [ValueError]. *)
Definition np_isclose (a b : ndarray) (atol : float) : result boolarray :=
  match broadcast_shapes (shape a) (shape b) with
  | None => inl ValueError
  | Some sh =>
      inr (BoolArray sh (fun idx =>
             isclose (item a (operand_index (shape a) idx))
                     (item b (operand_index (shape b) idx))
                     default_rtol atol))
  end.

(** "Differs by at most the absolute tolerance [atol]". *)
Definition within_atol (x y atol : float) : bool :=
  PrimFloat.leb (PrimFloat.abs (x - y)) atol.

(** ** The comparison with the reference fluxes (all-sky notebook)

    [[
    assert np.isclose(
        fluxes["lw_flux_up"],
        ref_data["lw_flux_up"].T,
        atol=1e-7,
    ).all()
    ]] *)
Definition assert_isclose (fluxes ref_data : Dataset) (name ref_name : string)
  : result unit :=
  let? a := getitem fluxes name in
  let? b := getitem ref_data ref_name in
  let? close := np_isclose (values a) (values (T b)) 1e-7%float in
  assert_ (np_all close).

(** The two assertions of the longwave cell; the first that fails ends the
    cell. *)
Definition check_lw (fluxes ref_data : Dataset) : result unit :=
  let? _ := assert_isclose fluxes ref_data "lw_flux_up" "lw_flux_up" in
  assert_isclose fluxes ref_data "lw_flux_down" "lw_flux_dn".

(** The three assertions of the shortwave cell. *)
Definition check_sw (fluxes ref_data : Dataset) : result unit :=
  let? _ := assert_isclose fluxes ref_data "sw_flux_up" "sw_flux_up" in
  let? _ := assert_isclose fluxes ref_data "sw_flux_down" "sw_flux_dn" in
  assert_isclose fluxes ref_data "sw_flux_dir" "sw_flux_dir".

(** The fields each cell compares, with the name of the reference array. *)
Definition lw_fields : list (string * string) :=
  [("lw_flux_up", "lw_flux_up"); ("lw_flux_down", "lw_flux_dn")].

Definition sw_fields : list (string * string) :=
  [("sw_flux_up", "sw_flux_up"); ("sw_flux_down", "sw_flux_dn");
   ("sw_flux_dir", "sw_flux_dir")].

(** A list of such assertions, in order. *)
Fixpoint assert_all (fields : list (string * string))
    (fluxes ref_data : Dataset) : result unit :=
  match fields with
  | [] => inr tt
  | (name, ref_name) :: rest =>
      let? _ := assert_isclose fluxes ref_data name ref_name in
      assert_all rest fluxes ref_data
  end.

(** ** Names of the external interface *)

Inductive CloudOpticsFiles := LW_BND | SW_BND.
Inductive GasOpticsFiles := LW_G256 | SW_G224.
Inductive OpticsProblemTypes := ABSORPTION | TWO_STREAM.
Inductive ALLSKY_EXAMPLES := REF_LW_NO_AEROSOL | REF_SW_NO_AEROSOL.

Inductive band := Longwave | Shortwave.

Definition gas_band (f : GasOpticsFiles) : band :=
  match f with LW_G256 => Longwave | SW_G224 => Shortwave end.

#[global] Instance CloudOpticsFiles_eq_dec : EqDecision CloudOpticsFiles.
Proof. solve_decision. Defined.
#[global] Instance GasOpticsFiles_eq_dec : EqDecision GasOpticsFiles.
Proof. solve_decision. Defined.
#[global] Instance band_eq_dec : EqDecision band.
Proof. solve_decision. Defined.

(** ** The heap of datasets and the trace of calls *)

Abbreviation loc := nat.

(** One entry per call into [pyrte_rrtmgp] or [xarray], in program order. *)
Inductive event :=
| LoadCloudOptics (f : CloudOpticsFiles)
| LoadGasOptics (f : GasOpticsFiles)
| Profiles (out : loc)                      (* compute_RCE_profiles *)
| Clouds (out : loc)                        (* compute_RCE_clouds *)
| DatasetMerge (self other out : loc)       (* self.merge(other) *)
| Chunk (self out : loc)                    (* self.chunk(...) *)
| NewDataset (out : loc) (vars : gset string)   (* xr.Dataset(data_vars=...) *)
| XrMerge (objects : list loc) (out : loc)  (* xr.merge([...]) *)
| SetItem (ds : loc) (name : string)        (* ds[name] = value *)
| GasOptics (f : GasOpticsFiles) (atm : loc) (pt : OpticsProblemTypes) (out : loc)
| CloudOptics (f : CloudOpticsFiles) (atm : loc) (pt : OpticsProblemTypes) (out : loc)
| AddTo (cloud gas : loc) (delta_scale : bool)
| Solve (ds : loc) (vars : gset string)     (* rte_solve(ds), with the variables ds holds *)
| LoadRef (ex : ALLSKY_EXAMPLES) (out : loc).

Record state := State { heap : gmap loc Dataset; trace : list event }.

Definition M (A : Type) : Type := state -> result A * state.

Definition ret {A} (a : A) : M A := fun s => (inr a, s).

Definition bind {A B} (m : M A) (f : A -> M B) : M B :=
  fun s =>
    match m s with
    | (inr a, s') => f a s'
    | (inl e, s') => (inl e, s')
    end.

Notation "'let*' x ':=' m 'in' k" := (bind m (fun x => k))
  (at level 10, x name, m at level 100, k at level 200).

Definition raise {A} (e : exn) : M A := fun s => (inl e, s).

Definition lift {A} (r : result A) : M A := fun s => (r, s).

Definition log (e : event) : M unit :=
  fun s => (inr tt, State (heap s) (trace s ++ [e])).

(** A new object: it gets an address no dataset lives at. *)
Definition alloc (d : Dataset) : M loc :=
  fun s =>
    let l := fresh (dom (heap s)) in
    (inr l, State (<[l := d]> (heap s)) (trace s)).

Definition deref (l : loc) : M Dataset :=
  fun s =>
    match heap s !! l with
    | Some d => (inr d, s)
    | None => (inl ReferenceError, s)
    end.

Definition store (l : loc) (d : Dataset) : M unit :=
  fun s => (inr tt, State (<[l := d]> (heap s)) (trace s)).

Definition run {A} (m : M A) (s : state) : result A * state := m s.

Definition init : state := State ∅ [].

(** The trace a script leaves when it is run from scratch. *)
Definition trace_of {A} (m : M A) : list event := trace (run m init).2.

(** ** xarray operations *)

(** Some dimension has two different lengths. *)
Definition size_conflict (ps qs : list (string * nat)) : bool :=
  existsb (fun p =>
    existsb (fun q => bool_decide (p.1 = q.1) && negb (bool_decide (p.2 = q.2))) qs)
    ps.

Definition same_float (x y : float) : bool :=
  PrimFloat.eqb x y || (PrimFloat.is_nan x && PrimFloat.is_nan y).

Definition identical (a b : DataArray) : bool :=
  bool_decide (dims a = dims b)
  && bool_decide (shape (values a) = shape (values b))
  && forallb (fun idx => same_float (item (values a) idx) (item (values b) idx))
       (indices (shape (values a))).

(** [ds[name] = value] on the dataset at [l]: the variable is added or
    replaced; a dimension of [value] that disagrees with the dataset's is a
    [ValueError]. *)
Definition setitem (l : loc) (name : string) (value : DataArray) : M unit :=
  let* ds := deref l in
  if size_conflict (dim_sizes value) (all_dim_sizes (delete name ds))
  then raise ValueError
  else
    let* _ := store l (<[name := value]> ds) in
    log (SetItem l name).

(** The merge of two datasets' variables ([compat="no_conflicts"] on
    dimensions without coordinates): dimensions must agree in length, and a
    variable of both must be the same in both. *)
Definition merge_datasets (a b : Dataset) : result Dataset :=
  if size_conflict (all_dim_sizes a) (all_dim_sizes b) then inl ValueError
  else if forallb (fun kv =>
            match b !! kv.1 with
            | Some w => identical kv.2 w
            | None => true
            end) (map_to_list a)
  then inr (a ∪ b)
  else inl MergeError.

(** [self.merge(other)]: a new dataset; neither operand changes. *)
Definition merge (self other : loc) : M loc :=
  let* a := deref self in
  let* b := deref other in
  let* d := lift (merge_datasets a b) in
  let* out := alloc d in
  let* _ := log (DatasetMerge self other out) in
  ret out.

(** [xr.merge([x, y])]. *)
Definition xr_merge (x y : loc) : M loc :=
  let* a := deref x in
  let* b := deref y in
  let* d := lift (merge_datasets a b) in
  let* out := alloc d in
  let* _ := log (XrMerge [x; y] out) in
  ret out.

(** [xr.Dataset(data_vars={...})] with scalar values. *)
Definition xr_Dataset (data_vars : list (string * float)) : M loc :=
  let d : Dataset := list_to_map (prod_map id scalar <$> data_vars) in
  let* out := alloc d in
  let* _ := log (NewDataset out (dom d)) in
  ret out.

(** [self.chunk({...})]: the same data behind a new (lazily evaluated)
    dataset object. *)
Definition chunk (self : loc) : M loc :=
  let* d := deref self in
  let* out := alloc d in
  let* _ := log (Chunk self out) in
  ret out.

(** ** The pyrte_rrtmgp interface

    The package's own modules ([rrtmgp_gas_optics], [rrtmgp_cloud_optics],
    [rte_solver], [examples]) are not part of the notebook file.  Their
    numerical content is left open: every number they produce is the value of
    an unspecified function of the call's inputs. *)
Class Numerics := {
  (** the value of a profile variable at an index *)
  rce_profile : float -> nat -> nat -> string -> list nat -> float;
  (** the value of a cloud property at an index *)
  rce_cloud : CloudOpticsFiles -> DataArray -> DataArray -> string -> list nat -> float;
  gas_optics_kernel :
    GasOpticsFiles -> OpticsProblemTypes -> Dataset -> string -> list nat -> float;
  cloud_optics_kernel :
    CloudOpticsFiles -> OpticsProblemTypes -> Dataset -> string -> list nat -> float;
  (** cloud-plus-gas optical property, with or without delta scaling *)
  increment_kernel : bool -> Dataset -> Dataset -> string -> list nat -> float;
  solver_kernel : Dataset -> string -> list nat -> float;
  (** number of spectral points of an optics file *)
  gas_ngpt : GasOpticsFiles -> nat;
  cloud_ngpt : CloudOpticsFiles -> nat;
  (** the bundled reference files *)
  reference : ALLSKY_EXAMPLES -> Dataset
}.

Definition variable (ds : list string) (sh : list nat) (f : list nat -> float)
  : DataArray :=
  mkDataArray ds (NDArray sh f).

(** The length of a named dimension in a problem with [ncol] columns, [nlay]
    layers and [ngpt] spectral points: one more level than layers. *)
Definition dim_length (ncol nlay ngpt : nat) (d : string) : nat :=
  if decide (d = "column") then ncol
  else if decide (d = "layer") then nlay
  else if decide (d = "level") then S nlay
  else if decide (d = "gpt") then ngpt
  else 0.

(** [ds[key]] on the dataset at [l]. *)
Definition getitem_at (l : loc) (key : string) : M DataArray :=
  let* d := deref l in
  lift (getitem d key).

(** The numbers of columns and layers of an atmosphere or of a set of optical
    properties, read off one of its per-layer variables. *)
Definition columns_layers (d : Dataset) (name : string) : result (nat * nat) :=
  let? v := getitem d name in
  match shape (values v) with
  | ncol :: nlay :: _ => inr (ncol, nlay)
  | _ => inl ValueError
  end.

Definition has (d : Dataset) (name : string) : bool :=
  bool_decide (name ∈ dom d).

Section Library.
Context {N : Numerics}.

(** Modelled from the spec: [load_cloud_optics] is not in the notebook file.
    "Load gas optics / cloud optics data from a named bundled data file,
    yielding an opaque optics object for longwave or shortwave bands": the
    object is known by the file it was loaded from. *)
Definition load_cloud_optics (cloud_optics_file : CloudOpticsFiles)
  : M CloudOpticsFiles :=
  let* _ := log (LoadCloudOptics cloud_optics_file) in
  ret cloud_optics_file.

(** Modelled from the spec: [load_gas_optics] is not in the notebook file;
    as [load_cloud_optics]. *)
Definition load_gas_optics (gas_optics_file : GasOpticsFiles)
  : M GasOpticsFiles :=
  let* _ := log (LoadGasOptics gas_optics_file) in
  ret gas_optics_file.

(** Modelled from the spec: the dataset [compute_RCE_profiles] builds (the
    function is not in the notebook file).  "Atmospheric state:
    per-column/per-layer temperature, pressure, gas concentrations (water
    vapor implied ...)"; the notebook adds: "vertical dimensions layer and
    level with one more level than layer; values of pressure and temperature
    on both vertical coordinates; a surface temperature". *)
Definition RCE_profiles (SST : float) (ncol nlay : nat) : Dataset :=
  let value := rce_profile SST ncol nlay in
  let on_layers name :=
    (name, variable ["column"; "layer"] [ncol; nlay] (value name)) in
  let on_levels name :=
    (name, variable ["column"; "level"] [ncol; S nlay] (value name)) in
  list_to_map
    [on_layers "pres_layer"; on_layers "temp_layer";
     on_levels "pres_level"; on_levels "temp_level";
     ("surface_temperature",
      variable ["column"] [ncol] (value "surface_temperature"));
     on_layers "h2o"].

(** Modelled from the spec: [compute_RCE_profiles] is not in the notebook
    file; it returns the dataset above as a new object. *)
Definition compute_RCE_profiles (SST : float) (ncol nlay : nat) : M loc :=
  let* out := alloc (RCE_profiles SST ncol nlay) in
  let* _ := log (Profiles out) in
  ret out.

(** Modelled from the spec: the dataset [compute_RCE_clouds] builds (the
    function is not in the notebook file).  "optional cloud properties
    (liquid/ice water path, effective particle size)", given on the layers
    the pressure is given on. *)
Definition RCE_clouds (cloud_optics : CloudOpticsFiles)
    (pres_layer temp_layer : DataArray) : Dataset :=
  let value := rce_cloud cloud_optics pres_layer temp_layer in
  let on_layers name :=
    (name, variable (dims pres_layer) (shape (values pres_layer)) (value name)) in
  list_to_map [on_layers "lwp"; on_layers "iwp"; on_layers "rel"; on_layers "rei"].

(** Modelled from the spec: [compute_RCE_clouds] is not in the notebook
    file; it returns the dataset above as a new object. *)
Definition compute_RCE_clouds (cloud_optics : CloudOpticsFiles)
    (pres_layer temp_layer : DataArray) : M loc :=
  let* out := alloc (RCE_clouds cloud_optics pres_layer temp_layer) in
  let* _ := log (Clouds out) in
  ret out.

(** The variables a gas-optics call returns, each with its dimensions:
    optical depth alone and the Planck sources for an absorption/emission
    problem; [tau], [ssa], [g] and the sources of the collimated beam for a
    two-stream problem (as the quick-start notebook lists them). *)
Definition gas_optics_variables (pt : OpticsProblemTypes)
  : list (string * list string) :=
  match pt with
  | ABSORPTION =>
      [("tau", ["column"; "layer"; "gpt"]);
       ("layer_source", ["column"; "layer"; "gpt"]);
       ("level_source", ["column"; "level"; "gpt"]);
       ("surface_source", ["column"; "gpt"])]
  | TWO_STREAM =>
      [("tau", ["column"; "layer"; "gpt"]);
       ("ssa", ["column"; "layer"; "gpt"]);
       ("g", ["column"; "layer"; "gpt"]);
       ("toa_source", ["column"; "gpt"]);
       ("level_source", ["column"; "level"; "gpt"]);
       ("surface_source", ["column"; "gpt"])]
  end.

(** The variables a cloud-optics call returns: for absorption "the only
    output is tau"; the sources are never returned. *)
Definition cloud_optics_variables (pt : OpticsProblemTypes)
  : list (string * list string) :=
  match pt with
  | ABSORPTION => [("tau", ["column"; "layer"; "gpt"])]
  | TWO_STREAM =>
      [("tau", ["column"; "layer"; "gpt"]);
       ("ssa", ["column"; "layer"; "gpt"]);
       ("g", ["column"; "layer"; "gpt"])]
  end.

Definition outputs (vars : list (string * list string)) (ncol nlay ngpt : nat)
    (value : string -> list nat -> float) : Dataset :=
  list_to_map
    ((fun v : string * list string =>
        (v.1, variable v.2 (dim_length ncol nlay ngpt <$> v.2) (value v.1)))
       <$> vars).

(** Where a call puts its result.  Neither the notebooks nor the
    specification say what [add_to_input] does; the notebooks always pass
    [add_to_input=False] and then use the result as a dataset of its own
    (they go on to give the same [atmosphere] to the cloud optics, and keep
    [clr_fluxes] beside [optical_props]).  The reading taken here is the one
    the parameter's name suggests: with [False] the result is a new dataset,
    with [True] (never passed) it is added to the input.  This is an
    assumption of the embedding, not a property proved of the library. *)
Definition deliver (input : loc) (d new : Dataset) (add_to_input : bool) : M loc :=
  if add_to_input then
    let* _ := store input (new ∪ d) in
    ret input
  else alloc new.

(** Modelled from the spec: [compute_gas_optics] is not in the notebook file.
    "Compute gas optics: takes atmospheric state, a problem-type selector
    (absorption-only vs. two-stream), returns spectrally resolved optical
    properties and (for absorption/emission problems) radiative source
    terms." *)
Definition compute_gas_optics (gas_optics : GasOpticsFiles) (atmosphere : loc)
    (problem_type : OpticsProblemTypes) (add_to_input : bool) : M loc :=
  let* atm := deref atmosphere in
  let* cl := lift (columns_layers atm "pres_layer") in
  let new :=
    outputs (gas_optics_variables problem_type) cl.1 cl.2 (gas_ngpt gas_optics)
      (gas_optics_kernel gas_optics problem_type atm) in
  let* out := deliver atmosphere atm new add_to_input in
  let* _ := log (GasOptics gas_optics atmosphere problem_type out) in
  ret out.

(** Modelled from the spec: [compute_cloud_optics] is not in the notebook
    file.  "Compute cloud optics: takes atmospheric state (plus cloud fields),
    returns spectrally resolved cloud optical properties".  The notebooks
    never pass [add_to_input] here; where they leave [problem_type] out the
    call is taken to be a two-stream one, as the all-sky notebook supposes. *)
Definition compute_cloud_optics (cloud_optics : CloudOpticsFiles)
    (atmosphere : loc) (problem_type : OpticsProblemTypes) : M loc :=
  let* atm := deref atmosphere in
  let* cl := lift (columns_layers atm "lwp") in
  let new :=
    outputs (cloud_optics_variables problem_type) cl.1 cl.2
      (cloud_ngpt cloud_optics)
      (cloud_optics_kernel cloud_optics problem_type atm) in
  let* out := alloc new in
  let* _ := log (CloudOptics cloud_optics atmosphere problem_type out) in
  ret out.

(** The optical properties [add_to] combines; sources and boundary
    conditions are not touched. *)
Definition optical_properties : list string := ["tau"; "ssa"; "g"].

Definition combine (delta_scale : bool) (cloud gas : Dataset) : Dataset :=
  map_imap
    (fun name da =>
       Some (if bool_decide (name ∈ optical_properties)
             then variable (dims da) (shape (values da))
                    (increment_kernel delta_scale cloud gas name)
             else da))
    gas.

(** Modelled from the spec: [add_to] is not in the notebook file.  Cloud
    optical properties are "combinable into an existing optical-properties
    object via an in-place add operation, optionally with a delta-scaling
    correction"; the notebooks add: "add_to() changes the value of
    optical_props" and "add_to() also returns updated optical properties".
    [delta_scale] is [false] when the call does not give it. *)
Definition add_to (self other : loc) (delta_scale : bool) : M loc :=
  let* cloud := deref self in
  let* gas := deref other in
  let* _ := store other (combine delta_scale cloud gas) in
  let* _ := log (AddTo self other delta_scale) in
  ret other.

(** A problem with the source of the collimated solar beam is a shortwave
    problem; one with internal emission is a longwave problem. *)
Definition is_shortwave (d : Dataset) : bool := has d "toa_source".

(** The boundary conditions [rte_solve] needs: [surface_emissivity] for a
    longwave problem; [mu0] and either [surface_albedo] or both
    [surface_albedo_direct] and [surface_albedo_diffuse] for a shortwave one. *)
Definition boundary_conditions (d : Dataset) : result unit :=
  if is_shortwave d then
    let? _ := getitem d "mu0" in
    if has d "surface_albedo" then inr tt
    else
      let? _ := getitem d "surface_albedo_direct" in
      let? _ := getitem d "surface_albedo_diffuse" in
      inr tt
  else
    let? _ := getitem d "surface_emissivity" in
    inr tt.

Definition flux_names (d : Dataset) : list string :=
  if is_shortwave d then ["sw_flux_up"; "sw_flux_down"; "sw_flux_dir"]
  else ["lw_flux_up"; "lw_flux_down"].

(** Modelled from the spec: [rte_solve] is not in the notebook file.  "Solve
    radiative transfer: takes a fully specified
    optical-properties-plus-boundary-conditions object, returns per-column
    per-level flux fields"; "Flux result: per-column, per-level
    upward/downward (and direct-beam, for shortwave) irradiance". *)
Definition rte_solve (ds : loc) (add_to_input : bool) : M loc :=
  let* d := deref ds in
  let* _ := log (Solve ds (dom d)) in
  let* cl := lift (columns_layers d "tau") in
  let* _ := lift (boundary_conditions d) in
  let new :=
    outputs ((fun name => (name, ["column"; "level"])) <$> flux_names d)
      cl.1 cl.2 0 (solver_kernel d) in
  deliver ds d new add_to_input.

(** Modelled from the spec: [load_example_file] is not in the notebook file.
    "Reference-data loader: returns precomputed flux arrays for numerical
    comparison." *)
Definition load_example_file (ex : ALLSKY_EXAMPLES) : M loc :=
  let* out := alloc (reference ex) in
  let* _ := log (LoadRef ex out) in
  ret out.

End Library.

(** ** The notebooks *)

Section Notebooks.
Context {N : Numerics}.

(** A [for] loop over a list. *)
Fixpoint for_each {A} (body : A -> M unit) (l : list A) : M unit :=
  match l with
  | [] => ret tt
  | x :: rest =>
      let* _ := body x in
      for_each body rest
  end.

(** [[
    gas_values = {
        "co2": 348e-6, "ch4": 1650e-9, "n2o": 306e-9,
        "n2": 0.7808, "o2": 0.2095, "co": 0.0,
    }
    ]] *)
Definition gas_values : list (string * float) :=
  [("co2", 348e-6); ("ch4", 1650e-9); ("n2o", 306e-9);
   ("n2", 0.7808); ("o2", 0.2095); ("co", 0.0)]%float.

(** [[
    def make_profiles(ncol=24, nlay=72):
        atmosphere = compute_RCE_profiles(300, ncol, nlay)
        gas_values = {...}
        for gas_name, value in gas_values.items():
            atmosphere[gas_name] = value
        return atmosphere
    ]] *)
Definition make_profiles (ncol nlay : nat) : M loc :=
  let* atmosphere := compute_RCE_profiles 300%float ncol nlay in
  let* _ :=
    for_each (fun gv : string * float => setitem atmosphere gv.1 (scalar gv.2))
      gas_values in
  ret atmosphere.

(** [[
    cloud_props = compute_RCE_clouds(
        cloud_optics, atmosphere["pres_layer"], atmosphere["temp_layer"]
    )
    atmosphere = atmosphere.merge(cloud_props)
    ]]
    The same two statements stand in both notebooks. *)
Definition add_clouds (cloud_optics : CloudOpticsFiles) (atmosphere : loc) : M loc :=
  let* pres_layer := getitem_at atmosphere "pres_layer" in
  let* temp_layer := getitem_at atmosphere "temp_layer" in
  let* cloud_props := compute_RCE_clouds cloud_optics pres_layer temp_layer in
  merge atmosphere cloud_props.

(** [[
    rte_solve(
        xr.merge(
            [cloud_optics_sw.compute_cloud_optics(atmosphere).add_to(
                gas_optics_sw.compute_gas_optics(
                    atmosphere,
                    problem_type=OpticsProblemTypes.TWO_STREAM,
                    add_to_input=False,
                ),
                delta_scale=True,
            ),
            xr.Dataset(data_vars = {"surface_albedo":0.06, "mu0":0.86})],
        ),
        add_to_input = False,
    )
    ]]
    Python evaluates the receiver of [add_to] before its argument, and the
    list's items from left to right. *)
Definition combined_shortwave (cloud_optics_sw : CloudOpticsFiles)
    (gas_optics_sw : GasOpticsFiles) (atmosphere : loc) : M loc :=
  let* clouds := compute_cloud_optics cloud_optics_sw atmosphere TWO_STREAM in
  let* gases := compute_gas_optics gas_optics_sw atmosphere TWO_STREAM false in
  let* all_sky := add_to clouds gases true in
  let* boundary := xr_Dataset [("surface_albedo", 0.06); ("mu0", 0.86)]%float in
  let* problem := xr_merge all_sky boundary in
  rte_solve problem false.

(** The quick-start notebook, cell by cell. *)
Definition quick_start : M loc :=
  (* Initialize gas and cloud optics *)
  let* cloud_optics_lw := load_cloud_optics LW_BND in
  let* gas_optics_lw := load_gas_optics LW_G256 in
  let* cloud_optics_sw := load_cloud_optics SW_BND in
  let* gas_optics_sw := load_gas_optics SW_G224 in
  (* Temperature, humidity, composition *)
  let* atmosphere := make_profiles 24 72 in
  (* Clouds *)
  let* atmosphere := add_clouds cloud_optics_lw atmosphere in
  (* Longwave, clear sky *)
  let* optical_props :=
    compute_gas_optics gas_optics_lw atmosphere ABSORPTION false in
  let* _ := setitem optical_props "surface_emissivity" (scalar 0.98) in
  let* clr_fluxes := rte_solve optical_props false in
  (* Longwave, cloudy sky *)
  let* clouds_optical_props :=
    compute_cloud_optics cloud_optics_lw atmosphere ABSORPTION in
  let* _ := add_to clouds_optical_props optical_props false in
  let* fluxes := rte_solve optical_props false in
  (* Shortwave: the receiver of add_to is evaluated before its argument *)
  let* clouds := compute_cloud_optics cloud_optics_sw atmosphere TWO_STREAM in
  let* gases := compute_gas_optics gas_optics_sw atmosphere TWO_STREAM false in
  let* optical_props := add_to clouds gases true in
  let* _ := setitem optical_props "surface_albedo" (scalar 0.06) in
  let* _ := setitem optical_props "mu0" (scalar 0.86) in
  let* fluxes := rte_solve optical_props false in
  (* Variants: combining steps *)
  let* fluxes := combined_shortwave cloud_optics_sw gas_optics_sw atmosphere in
  (* Variants: the same on a chunked atmosphere of 24*16 columns *)
  let* atmosphere := make_profiles (24 * 16) 72 in
  let* atmosphere := add_clouds cloud_optics_lw atmosphere in
  let* atmosphere := chunk atmosphere in
  combined_shortwave cloud_optics_sw gas_optics_sw atmosphere.

(** The all-sky notebook: the longwave calculation ("datasets are saved to
    intermediate variables at each step"). *)
Definition allsky_longwave : M loc :=
  let* cloud_optics_lw := load_cloud_optics LW_BND in
  let* gas_optics_lw := load_gas_optics LW_G256 in
  let* atmosphere := make_profiles 24 72 in
  let* atmosphere := add_clouds cloud_optics_lw atmosphere in
  let* optical_props :=
    compute_gas_optics gas_optics_lw atmosphere ABSORPTION false in
  let* _ := setitem optical_props "surface_emissivity" (scalar 0.98) in
  let* clouds_optical_props :=
    compute_cloud_optics cloud_optics_lw atmosphere ABSORPTION in
  let* _ := add_to clouds_optical_props optical_props false in
  rte_solve optical_props false.

(** [[
    ref_data = load_example_file(ALLSKY_EXAMPLES.REF_LW_NO_AEROSOL)
    assert np.isclose(fluxes["lw_flux_up"], ref_data["lw_flux_up"].T, atol=1e-7).all()
    assert np.isclose(fluxes["lw_flux_down"], ref_data["lw_flux_dn"].T, atol=1e-7).all()
    ]] *)
Definition validate (ex : ALLSKY_EXAMPLES)
    (check : Dataset -> Dataset -> result unit) (fluxes : loc) : M unit :=
  let* ref_data := load_example_file ex in
  let* f := deref fluxes in
  let* r := deref ref_data in
  lift (check f r).

Definition allsky_validate_lw : loc -> M unit :=
  validate REF_LW_NO_AEROSOL check_lw.

(** The all-sky notebook: the shortwave calculation ("steps are combined
    where possible"). *)
Definition allsky_shortwave : M loc :=
  let* cloud_optics_sw := load_cloud_optics SW_BND in
  let* gas_optics_sw := load_gas_optics SW_G224 in
  let* atmosphere := make_profiles 24 72 in
  let* atmosphere := add_clouds cloud_optics_sw atmosphere in
  let* optical_props :=
    compute_gas_optics gas_optics_sw atmosphere TWO_STREAM false in
  let* clouds := compute_cloud_optics cloud_optics_sw atmosphere TWO_STREAM in
  let* _ := add_to clouds optical_props true in
  let* _ := setitem optical_props "surface_albedo_direct" (scalar 0.06) in
  let* _ := setitem optical_props "surface_albedo_diffuse" (scalar 0.06) in
  let* _ := setitem optical_props "mu0" (scalar 0.86) in
  rte_solve optical_props false.

Definition allsky_validate_sw : loc -> M unit :=
  validate REF_SW_NO_AEROSOL check_sw.

Definition all_sky : M unit :=
  let* fluxes := allsky_longwave in
  let* _ := allsky_validate_lw fluxes in
  let* fluxes := allsky_shortwave in
  allsky_validate_sw fluxes.

End Notebooks.

(** A stand-in for the numerical kernels, to run the scripts on. *)
Definition constant_numerics (v : float) (ref : ALLSKY_EXAMPLES -> Dataset)
  : Numerics :=
  {| rce_profile := fun _ _ _ _ _ => v;
     rce_cloud := fun _ _ _ _ _ => v;
     gas_optics_kernel := fun _ _ _ _ _ => v;
     cloud_optics_kernel := fun _ _ _ _ _ => v;
     increment_kernel := fun _ _ _ _ _ => v;
     solver_kernel := fun _ _ _ => v;
     gas_ngpt := fun f => match f with LW_G256 => 256 | SW_G224 => 224 end;
     cloud_ngpt := fun f => match f with LW_BND => 16 | SW_BND => 14 end;
     reference := ref |}.

(** ** What the statements below are about *)

(** *** The comparison with the reference *)

(** A flux field and its reference array can be compared entry by entry: the
    field is [ncol] by [nlev], the reference [nlev] by [ncol]. *)
Definition comparable (fluxes ref_data : Dataset) (ncol nlev : nat)
    (field : string * string) : Prop :=
  exists a b,
    fluxes !! field.1 = Some a /\ ref_data !! field.2 = Some b /\
    shape (values a) = [ncol; nlev] /\ shape (values b) = [nlev; ncol].

Definition entry (d : Dataset) (name : string) (idx : list nat) : float :=
  match d !! name with
  | Some a => item (values a) idx
  | None => PrimFloat.nan
  end.

(** Every entry of the field passes numpy's test against the transposed
    reference: [abs(x - y) <= 1e-7 + 1e-5 * abs(y)] for a finite [y], or
    [x == y]. *)
Definition close_to_reference (fluxes ref_data : Dataset) (ncol nlev : nat)
    (field : string * string) : Prop :=
  forall c l, c < ncol -> l < nlev ->
    isclose (entry fluxes field.1 [c; l]) (entry ref_data field.2 [l; c])
      default_rtol 1e-7%float = true.

(** Every entry of the field differs from the transposed reference by at
    most [1e-7]. *)
Definition within_tolerance (fluxes ref_data : Dataset) (ncol nlev : nat)
    (field : string * string) : Prop :=
  forall c l, c < ncol -> l < nlev ->
    within_atol (entry fluxes field.1 [c; l]) (entry ref_data field.2 [l; c])
      1e-7%float = true.

(** *** The order of the steps *)

Definition is_atmosphere (seen : list event) (l : loc) : bool :=
  existsb (fun e =>
    match e with
    | Profiles out | DatasetMerge _ _ out | Chunk _ out => bool_decide (out = l)
    | _ => false
    end) seen.

Definition is_cloud_props (seen : list event) (l : loc) : bool :=
  existsb (fun e =>
    match e with Clouds out => bool_decide (out = l) | _ => false end) seen.

Definition loaded_gas (seen : list event) (f : GasOpticsFiles) : bool :=
  existsb (fun e =>
    match e with LoadGasOptics f' => bool_decide (f' = f) | _ => false end) seen.

Definition loaded_cloud (seen : list event) (f : CloudOpticsFiles) : bool :=
  existsb (fun e =>
    match e with LoadCloudOptics f' => bool_decide (f' = f) | _ => false end) seen.

(** The gas-optics call that returned the dataset at [l]. *)
Fixpoint gas_problem (seen : list event) (l : loc)
  : option (GasOpticsFiles * OpticsProblemTypes) :=
  match seen with
  | [] => None
  | GasOptics f _ pt out :: rest =>
      if decide (out = l) then Some (f, pt) else gas_problem rest l
  | _ :: rest => gas_problem rest l
  end.

Definition is_cloud_optics (seen : list event) (l : loc) : bool :=
  existsb (fun e =>
    match e with CloudOptics _ _ _ out => bool_decide (out = l) | _ => false end)
    seen.

(** The dataset at [l] holds gas optical properties: a gas-optics call
    returned it, or [xr.merge] built it from one that does. *)
Definition is_problem (seen : list event) (l : loc) : bool :=
  bool_decide (is_Some (gas_problem seen l))
  || existsb (fun e =>
       match e with
       | XrMerge objects out =>
           bool_decide (out = l)
           && existsb (fun o => bool_decide (is_Some (gas_problem seen o))) objects
       | _ => false
       end) seen.

Definition solved (seen : list event) : bool :=
  existsb (fun e => match e with Solve _ _ => true | _ => false end) seen.

(** The boundary conditions are among the variables [vars] of a problem. *)
Definition boundary_conditions_in (vars : gset string) : bool :=
  if bool_decide ("toa_source" ∈ vars) then
    bool_decide ("mu0" ∈ vars)
    && (bool_decide ("surface_albedo" ∈ vars)
        || (bool_decide ("surface_albedo_direct" ∈ vars)
            && bool_decide ("surface_albedo_diffuse" ∈ vars)))
  else bool_decide ("surface_emissivity" ∈ vars).

(** What a call needs to have happened before it. *)
Definition event_ok (seen : list event) (e : event) : bool :=
  match e with
  | LoadCloudOptics _ | LoadGasOptics _ | Profiles _ => true
  | NewDataset _ _ | XrMerge _ _ | SetItem _ _ => true
  | Clouds _ =>
      existsb (fun e' => match e' with Profiles _ => true | _ => false end) seen
  | DatasetMerge self other _ => is_atmosphere seen self && is_cloud_props seen other
  | Chunk self _ => is_atmosphere seen self
  | GasOptics f atm _ _ => loaded_gas seen f && is_atmosphere seen atm
  | CloudOptics f atm _ _ => loaded_cloud seen f && is_atmosphere seen atm
  | AddTo cloud gas _ =>
      is_cloud_optics seen cloud && bool_decide (is_Some (gas_problem seen gas))
  | Solve ds vars => is_problem seen ds && boundary_conditions_in vars
  | LoadRef _ _ => solved seen
  end.

(** Every call of [rest] passes [ok], given the calls made before it
    ([seen] to start with). *)
Fixpoint always (ok : list event -> event -> bool) (seen rest : list event)
  : bool :=
  match rest with
  | [] => true
  | e :: rest' => ok seen e && always ok (seen ++ [e]) rest'
  end.

(** [add_to] is called with [delta_scale=True] on the two-stream optical
    properties of the shortwave gas optics, and without it on the absorption
    optical depth of the longwave gas optics. *)
Definition delta_scale_ok (seen : list event) (e : event) : bool :=
  match e with
  | AddTo _ gas delta_scale =>
      match gas_problem seen gas with
      | Some (f, TWO_STREAM) =>
          bool_decide (gas_band f = Shortwave) && delta_scale
      | Some (f, ABSORPTION) =>
          bool_decide (gas_band f = Longwave) && negb delta_scale
      | None => false
      end
  | _ => true
  end.

Definition boundary_names : list string :=
  ["surface_emissivity"; "surface_albedo"; "surface_albedo_direct";
   "surface_albedo_diffuse"; "mu0"].

(** The step of the "fixed linear order" a call belongs to: 0 load the
    optics, 1 synthesize the atmosphere, 2 gas optics, 3 cloud optics and
    their merge into the gas optics, 4 boundary conditions, 5 solve,
    6 compare. *)
Definition step (e : event) : nat :=
  match e with
  | LoadCloudOptics _ | LoadGasOptics _ => 0
  | Profiles _ | Clouds _ | DatasetMerge _ _ _ | Chunk _ _ => 1
  | SetItem _ name => if bool_decide (name ∈ boundary_names) then 4 else 1
  | GasOptics _ _ _ _ => 2
  | CloudOptics _ _ _ _ | AddTo _ _ _ => 3
  | NewDataset _ _ | XrMerge _ _ => 4
  | Solve _ _ => 5
  | LoadRef _ _ => 6
  end.

Definition fixed_linear_order (tr : list event) : Prop :=
  forall i j a b, i < j -> tr !! i = Some a -> tr !! j = Some b ->
    step a <= step b.

(** *** The vertical dimensions *)



Definition well_mixed_gases : list string := ["co2"; "ch4"; "n2o"; "n2"; "o2"; "co"].



(** The dataset [make_profiles] leaves behind: the profile with the values
    of [gas_values] assigned in order. *)
Definition with_gases (d : Dataset) (gases : list (string * float)) : Dataset :=
  foldl (fun acc gv => <[gv.1 := scalar gv.2]> acc) d gases.

(** ** Small inputs to run the definitions on *)

Definition example_numerics : Numerics := constant_numerics 0%float (fun _ => ∅).

(** A field with one column and one level. *)
Definition one_entry (name : string) (v : float) : Dataset :=
  {[ name := variable ["column"; "level"] [1; 1] (fun _ => v) ]}.

Definition example_lw_fluxes (up down : float) : Dataset :=
  one_entry "lw_flux_up" up ∪ one_entry "lw_flux_down" down.

Definition example_lw_reference (up down : float) : Dataset :=
  one_entry "lw_flux_up" up ∪ one_entry "lw_flux_dn" down.

Definition example_sw_fluxes (up down dir : float) : Dataset :=
  one_entry "sw_flux_up" up ∪ one_entry "sw_flux_down" down
  ∪ one_entry "sw_flux_dir" dir.

Definition example_sw_reference (up down dir : float) : Dataset :=
  one_entry "sw_flux_up" up ∪ one_entry "sw_flux_dn" down
  ∪ one_entry "sw_flux_dir" dir.

(** A longwave problem of one column, one layer and one spectral point, with
    its boundary condition, and the optical depth of a cloud. *)
Definition example_problem : Dataset :=
  list_to_map
    [("tau", variable ["column"; "layer"; "gpt"] [1; 1; 1] (fun _ => 0.5%float));
     ("layer_source", variable ["column"; "layer"; "gpt"] [1; 1; 1] (fun _ => 1%float));
     ("level_source", variable ["column"; "level"; "gpt"] [1; 2; 1] (fun _ => 1%float));
     ("surface_source", variable ["column"; "gpt"] [1; 1] (fun _ => 1%float));
     ("surface_emissivity", scalar 0.98%float)].

Definition example_cloud : Dataset :=
  {[ "tau" := variable ["column"; "layer"; "gpt"] [1; 1; 1] (fun _ => 2%float) ]}.

Definition example_atmosphere : Dataset :=
  {[ "pres_layer" := variable ["column"; "layer"] [1; 1] (fun _ => 50000%float) ]}.

(** A heap with the atmosphere at 0, the problem at 1 and the cloud at 2. *)
Definition example_state : state :=
  State (<[0 := example_atmosphere]> (<[1 := example_problem]> {[ 2 := example_cloud ]})) [].

(** The state a comparison cell leaves, whether its assertions hold or not:
    the reference file has been loaded. *)
Definition after_validate {N : Numerics} (ex : ALLSKY_EXAMPLES) (s : state) : state :=
  State (<[fresh (dom (heap s)) := reference ex]> (heap s))
    (trace s ++ [LoadRef ex (fresh (dom (heap s)))]).

(** The all-sky notebook's state after its longwave half, and after both
    halves. *)
Definition allsky_state_lw {N : Numerics} : state :=
  after_validate REF_LW_NO_AEROSOL (run allsky_longwave init).2.

Definition allsky_state_sw {N : Numerics} : state :=
  after_validate REF_SW_NO_AEROSOL (run allsky_shortwave allsky_state_lw).2.

(** ** What the comparison cells accept and reject *)

(** Some entry of the field, computed or reference, is not a number. *)
Definition has_nan (fluxes ref_data : Dataset) (ncol nlev : nat)
    (field : string * string) : Prop :=
  exists c l, c < ncol /\ l < nlev /\
    (PrimFloat.is_nan (entry fluxes field.1 [c; l]) = true \/
     PrimFloat.is_nan (entry ref_data field.2 [l; c]) = true).

Definition no_nan (fluxes : Dataset) (ncol nlev : nat) (field : string * string) : Prop :=
  forall c l, c < ncol -> l < nlev ->
    PrimFloat.is_nan (entry fluxes field.1 [c; l]) = false.

(** The reference array is the computed field itself, stored with its axes
    reversed as the reference files are. *)
Definition transposed_copy (fluxes ref_data : Dataset) (ncol nlev : nat)
    (field : string * string) : Prop :=
  exists a,
    fluxes !! field.1 = Some a /\ ref_data !! field.2 = Some (T a) /\
    shape (values a) = [ncol; nlev].

(** The reference array holds one site only: [nlev] levels by one column. *)
Definition single_site (fluxes ref_data : Dataset) (ncol nlev : nat)
    (field : string * string) : Prop :=
  exists a b,
    fluxes !! field.1 = Some a /\ ref_data !! field.2 = Some b /\
    shape (values a) = [ncol; nlev] /\ shape (values b) = [nlev; 1].

(** Every column of the field passes numpy's test against the one reference
    column. *)
Definition close_to_single_site (fluxes ref_data : Dataset) (ncol nlev : nat)
    (field : string * string) : Prop :=
  forall c l, c < ncol -> l < nlev ->
    isclose (entry fluxes field.1 [c; l]) (entry ref_data field.2 [l; 0])
      default_rtol 1e-7%float = true.

(** Two datasets with the same variables and the same arrays in them; the
    names of the dimensions may differ ([column] against [site]). *)
Definition same_values (d d' : Dataset) : Prop :=
  forall name, values <$> d !! name = values <$> d' !! name.

(** No dimension of [d] bears one of [names]: asked for one of them, [d]
    answers with a variable or a [KeyError], never with the index of a
    dimension. *)
Definition no_dimension_named (names : list string) (d : Dataset) : Prop :=
  Forall (fun name => dim_size d name = None) names.

(** Shapes [[n; m]] and [[n'; m']] that numpy cannot broadcast together. *)
Definition incompatible (n m n' m' : nat) : Prop :=
  (n <> n' /\ n <> 1 /\ n' <> 1) \/ (m <> m' /\ m <> 1 /\ m' <> 1).

(** ** Where the operands of [add_to] come from *)

Definition cloud_band (f : CloudOpticsFiles) : band :=
  match f with LW_BND => Longwave | SW_BND => Shortwave end.

(** The [compute_cloud_optics] call that returned [l]: its optics file and
    the atmosphere it was given. *)
Fixpoint cloud_call (seen : list event) (l : loc)
  : option (CloudOpticsFiles * loc) :=
  match seen with
  | [] => None
  | CloudOptics f atm _ out :: rest =>
      if decide (out = l) then Some (f, atm) else cloud_call rest l
  | _ :: rest => cloud_call rest l
  end.

(** The [compute_gas_optics] call that returned [l]. *)
Fixpoint gas_call (seen : list event) (l : loc)
  : option (GasOpticsFiles * loc) :=
  match seen with
  | [] => None
  | GasOptics f atm _ out :: rest =>
      if decide (out = l) then Some (f, atm) else gas_call rest l
  | _ :: rest => gas_call rest l
  end.

(** An [add_to] call whose operands were computed for the same band from the
    same atmosphere object. *)
Definition same_atmosphere_ok (seen : list event) (e : event) : bool :=
  match e with
  | AddTo cloud gas _ =>
      match cloud_call seen cloud, gas_call seen gas with
      | Some (fc, ac), Some (fg, ag) =>
          bool_decide (cloud_band fc = gas_band fg) && bool_decide (ac = ag)
      | _, _ => false
      end
  | _ => true
  end.

(** ** Further small inputs *)

(** One array under several names. *)
Definition named (names : list string) (da : DataArray) : Dataset :=
  list_to_map ((fun name => (name, da)) <$> names).

Definition lw_names : list string := ["lw_flux_up"; "lw_flux_down"].
Definition lw_ref_names : list string := ["lw_flux_up"; "lw_flux_dn"].
Definition sw_names : list string := ["sw_flux_up"; "sw_flux_down"; "sw_flux_dir"].
Definition sw_ref_names : list string := ["sw_flux_up"; "sw_flux_dn"; "sw_flux_dir"].

(** A field of two columns by three levels. *)
Definition example_grid : DataArray :=
  variable ["column"; "level"] [2; 3]
    (fun idx =>
       match idx with
       | [0; 0] => 400%float
       | [0; _] => 380%float
       | [_; 0] => 410%float
       | _ => 385%float
       end).

(** The same numbers on dimensions named as in the reference files. *)
Definition example_grid_site : DataArray :=
  variable ["site"; "level"] [2; 3] (item (values example_grid)).

(** The same numbers again, on a first dimension that bears the name of a
    compared field. *)
Definition example_grid_misnamed : DataArray :=
  variable ["lw_flux_up"; "level"] [2; 3] (item (values example_grid)).

(** A field whose two columns are equal, and its one column as a reference
    of three levels by one site. *)
Definition example_uniform : DataArray :=
  variable ["column"; "level"] [2; 3]
    (fun idx => match idx with [_; 0] => 400%float | _ => 380%float end).

Definition example_site : DataArray :=
  variable ["level"; "site"] [3; 1]
    (fun idx => match idx with [0; _] => 400%float | _ => 380%float end).

(** A field without columns. *)
Definition example_no_column : DataArray :=
  variable ["column"; "level"] [0; 3] (fun _ => 400%float).

(** * Proofs *)

(** ** Arrays of rank two and [np.isclose] *)

Lemma in_indices2 n m idx :
  In idx (indices [n; m]) <-> exists c l, idx = [c; l] /\ c < n /\ l < m.
Proof.
  simpl. rewrite in_flat_map. split.
  - intros (c & Hc & Hin). apply in_map_iff in Hin as (rest & <- & Hrest).
    apply in_flat_map in Hrest as (l & Hl & Hin).
    simpl in Hin. destruct Hin as [<- | []].
    apply in_seq in Hc, Hl. exists c, l. split; [done | lia].
  - intros (c & l & -> & Hc & Hl). exists c. split; [apply in_seq; lia |].
    apply in_map_iff. exists [l]. split; [done |].
    apply in_flat_map. exists l. split; [apply in_seq; lia | by left].
Qed.

Lemma broadcast_dim_same a : broadcast_dim a a = Some a.
Proof. unfold broadcast_dim. by rewrite decide_True. Qed.

Lemma broadcast_shapes_same2 n m : broadcast_shapes [n; m] [n; m] = Some [n; m].
Proof. unfold broadcast_shapes. simpl. by rewrite !broadcast_dim_same. Qed.

(** Inside the shape nothing is repeated: an axis of length 1 only has
    index 0. *)
Lemma operand_index_same2 n m c l :
  c < n -> l < m -> operand_index [n; m] [c; l] = [c; l].
Proof.
  intros Hc Hl. unfold operand_index. simpl.
  repeat case_decide; simpl; repeat f_equal; lia.
Qed.

Lemma assert_isclose_spec fluxes ref_data ncol nlev field :
  comparable fluxes ref_data ncol nlev field ->
  (assert_isclose fluxes ref_data field.1 field.2 = inr tt <->
     close_to_reference fluxes ref_data ncol nlev field) /\
  (assert_isclose fluxes ref_data field.1 field.2 = inr tt \/
   assert_isclose fluxes ref_data field.1 field.2 = inl AssertionError).
Proof.
  intros (a & b & Ha & Hb & Hsa & Hsb).
  unfold assert_isclose, getitem, close_to_reference, entry.
  rewrite Ha, Hb. simpl. unfold np_isclose. simpl. rewrite Hsa, Hsb. simpl.
  rewrite broadcast_shapes_same2. simpl. unfold np_all. simpl bshape. simpl bitem.
  destruct (forallb _ _) eqn:Hall; simpl.
  - split; [| by left]. split; [intros _ | done].
    intros c l Hc Hl. rewrite forallb_forall in Hall.
    specialize (Hall [c; l]). rewrite in_indices2 in Hall.
    rewrite !operand_index_same2 in Hall by done. apply Hall. eauto.
  - split; [| by right]. split; [done |]. intros Hclose. exfalso.
    apply not_true_iff_false in Hall. apply Hall.
    apply forallb_forall. intros idx (c & l & -> & Hc & Hl)%in_indices2.
    rewrite !operand_index_same2 by done. by apply Hclose.
Qed.

Lemma assert_all_spec fluxes ref_data ncol nlev fields :
  Forall (comparable fluxes ref_data ncol nlev) fields ->
  (assert_all fields fluxes ref_data = inr tt <->
     Forall (close_to_reference fluxes ref_data ncol nlev) fields) /\
  (assert_all fields fluxes ref_data = inr tt \/
   assert_all fields fluxes ref_data = inl AssertionError).
Proof.
  induction 1 as [| [name ref_name] rest Hc Hrest IH]; simpl.
  - split; [| by left]. split; [constructor | done].
  - destruct (assert_isclose_spec _ _ _ _ _ Hc) as [Hiff Hcases]. simpl in *.
    destruct IH as [IHiff IHcases].
    destruct Hcases as [Hok | Hfail].
    + rewrite Hok. simpl. split; [| done]. rewrite IHiff. split.
      * intros ?. constructor; [by apply Hiff | done].
      * by inversion 1.
    + rewrite Hfail. simpl. split; [| by right]. split; [done |].
      inversion 1 as [| ?? Hclose]; subst. apply Hiff in Hclose. congruence.
Qed.

Lemma rbind_unit (r : result unit) : (let? _ := r in inr tt) = r.
Proof. by destruct r as [e | []]. Qed.

Lemma check_lw_assert_all fluxes ref_data :
  check_lw fluxes ref_data = assert_all lw_fields fluxes ref_data.
Proof. unfold check_lw. simpl. by rewrite rbind_unit. Qed.

Lemma check_sw_assert_all fluxes ref_data :
  check_sw fluxes ref_data = assert_all sw_fields fluxes ref_data.
Proof. unfold check_sw. simpl. by rewrite rbind_unit. Qed.

(** C1 (amended).  For flux fields of [ncol] columns by [nlev] levels and
    reference arrays of [nlev] by [ncol], the longwave comparison
    ([lw_flux_up], [lw_flux_down]) and the shortwave comparison ([sw_flux_up],
    [sw_flux_down], [sw_flux_dir]) succeed exactly when, for every column and
    every level, the computed entry [x] and the entry [y] of the transposed
    reference pass [np.isclose] with [atol=1e-7] and numpy's default
    [rtol=1e-5], that is [abs(x - y) <= 1e-7 + 1e-5 * abs(y)] with [y]
    finite, or [x == y]; otherwise the cell raises [AssertionError]. *)
Theorem validation_iff_isclose (lw_fluxes lw_ref sw_fluxes sw_ref : Dataset)
    (ncol nlev : nat) :
  Forall (comparable lw_fluxes lw_ref ncol nlev) lw_fields ->
  Forall (comparable sw_fluxes sw_ref ncol nlev) sw_fields ->
  (check_lw lw_fluxes lw_ref = inr tt <->
     Forall (close_to_reference lw_fluxes lw_ref ncol nlev) lw_fields) /\
  (check_lw lw_fluxes lw_ref = inr tt \/
   check_lw lw_fluxes lw_ref = inl AssertionError) /\
  (check_sw sw_fluxes sw_ref = inr tt <->
     Forall (close_to_reference sw_fluxes sw_ref ncol nlev) sw_fields) /\
  (check_sw sw_fluxes sw_ref = inr tt \/
   check_sw sw_fluxes sw_ref = inl AssertionError).
Proof.
  intros Hlw Hsw.
  destruct (assert_all_spec _ _ _ _ _ Hlw) as [? ?].
  destruct (assert_all_spec _ _ _ _ _ Hsw) as [? ?].
  rewrite check_lw_assert_all, check_sw_assert_all. tauto.
Qed.

(** ** Traces *)

Lemma always_lookup ok : forall rest seen,
  always ok seen rest = true ->
  forall i e, rest !! i = Some e -> ok (seen ++ take i rest) e = true.
Proof.
  induction rest as [| e0 rest IH]; intros seen H i e Hi; [done |].
  simpl in H. apply andb_true_iff in H as [H0 H].
  destruct i as [| i]; simpl in *.
  - injection Hi as <-. by rewrite app_nil_r.
  - specialize (IH _ H i e Hi). by rewrite <- app_assoc in IH.
Qed.

Section Proofs.
Context {N : Numerics}.

(** ** Running scripts *)

Lemma run_bind {A B} (m : M A) (f : A -> M B) s :
  run (bind m f) s =
  match run m s with
  | (inr a, s') => run (f a) s'
  | (inl e, s') => (inl e, s')
  end.
Proof. reflexivity. Qed.

Lemma run_fst {A} (m : M A) s r : (run m s).1 = r -> run m s = (r, (run m s).2).
Proof. intros <-. by destruct (run m s). Qed.

Lemma fresh_heap (s : state) : heap s !! fresh (dom (heap s)) = None.
Proof. apply not_elem_of_dom, is_fresh. Qed.

Lemma setitem_scalar l name v s d :
  heap s !! l = Some d ->
  run (setitem l name (scalar v)) s =
  (inr tt, State (<[l := <[name := scalar v]> d]> (heap s)) (trace s ++ [SetItem l name])).
Proof.
  intros H. unfold setitem, run, bind, deref. rewrite H. reflexivity.
Qed.

Lemma for_each_setitem l gases : forall s d,
  heap s !! l = Some d ->
  run (for_each (fun gv : string * float => setitem l gv.1 (scalar gv.2)) gases) s =
  (inr tt, State (<[l := with_gases d gases]> (heap s))
             (trace s ++ ((fun gv : string * float => SetItem l gv.1) <$> gases))).
Proof.
  induction gases as [| gv rest IH]; intros s d H; simpl.
  - unfold run, ret. rewrite insert_id by done. rewrite app_nil_r. by destruct s.
  - rewrite run_bind, (setitem_scalar _ _ _ _ _ H).
    rewrite (IH _ (<[gv.1 := scalar gv.2]> d)) by (simpl; apply lookup_insert_eq).
    simpl. rewrite insert_insert_eq, <- app_assoc. reflexivity.
Qed.

Lemma compute_RCE_profiles_run SST ncol nlay s :
  run (compute_RCE_profiles SST ncol nlay) s =
  (inr (fresh (dom (heap s))),
   State (<[fresh (dom (heap s)) := RCE_profiles SST ncol nlay]> (heap s))
     (trace s ++ [Profiles (fresh (dom (heap s)))])).
Proof. reflexivity. Qed.

Lemma make_profiles_run ncol nlay s :
  run (make_profiles ncol nlay) s =
  (inr (fresh (dom (heap s))),
   State (<[fresh (dom (heap s)) := with_gases (RCE_profiles 300 ncol nlay) gas_values]> (heap s))
     (trace s ++ Profiles (fresh (dom (heap s)))
        :: ((fun gv : string * float => SetItem (fresh (dom (heap s))) gv.1) <$> gas_values))).
Proof.
  unfold make_profiles. rewrite run_bind, compute_RCE_profiles_run.
  rewrite run_bind.
  rewrite (for_each_setitem _ _ _ (RCE_profiles 300 ncol nlay)) by (simpl; apply lookup_insert_eq).
  simpl heap. simpl trace. rewrite insert_insert_eq, <- app_assoc. reflexivity.
Qed.

(** C6.  For every [ncol] and [nlay], [make_profiles(ncol, nlay)] returns the
    dataset [compute_RCE_profiles(300, ncol, nlay)] returns, now holding
    [co2 = 348e-6], [ch4 = 1650e-9], [n2o = 306e-9], [n2 = 0.7808],
    [o2 = 0.2095] and [co = 0.0]; none of the six was a variable of the
    profile, every other variable is as it was, and no other dataset
    changes. *)
Theorem make_profiles_adds_six_gases (ncol nlay : nat) (s : state) :
  exists atmosphere s0 s1 d0 d1,
    run (compute_RCE_profiles 300 ncol nlay) s = (inr atmosphere, s0) /\
    run (make_profiles ncol nlay) s = (inr atmosphere, s1) /\
    heap s0 !! atmosphere = Some d0 /\
    heap s1 !! atmosphere = Some d1 /\
    d1 !! "co2" = Some (scalar 348e-6) /\
    d1 !! "ch4" = Some (scalar 1650e-9) /\
    d1 !! "n2o" = Some (scalar 306e-9) /\
    d1 !! "n2" = Some (scalar 0.7808) /\
    d1 !! "o2" = Some (scalar 0.2095) /\
    d1 !! "co" = Some (scalar 0.0) /\
    (forall name, name ∉ well_mixed_gases -> d1 !! name = d0 !! name) /\
    (forall gas, gas ∈ well_mixed_gases -> d0 !! gas = None) /\
    dom d1 = dom d0 ∪ list_to_set well_mixed_gases /\
    size d1 = size d0 + 6 /\
    (forall l, l <> atmosphere -> heap s1 !! l = heap s !! l).
Proof.
  eexists _, _, _, _, _.
  split; [apply compute_RCE_profiles_run |].
  split; [apply make_profiles_run |].
  split; [simpl; apply lookup_insert_eq |].
  split; [simpl; apply lookup_insert_eq |].
  repeat (split; [vm_compute; reflexivity |]).
  split.
  { intros name Hname. unfold with_gases, gas_values. simpl.
    unfold well_mixed_gases in Hname.
    rewrite !lookup_insert_ne; [done | ..]; intros <-; apply Hname; set_solver. }
  split.
  { intros gas Hgas. unfold well_mixed_gases in Hgas.
    repeat (apply elem_of_cons in Hgas as [-> | Hgas]; [vm_compute; reflexivity |]).
    by apply elem_of_nil in Hgas. }
  split; [vm_compute; reflexivity |].
  split; [vm_compute; reflexivity |].
  intros l Hl. simpl. by rewrite lookup_insert_ne.
Qed.

(** ** The notebooks' traces *)

Lemma validate_state ex check fluxes s :
  (run (validate ex check fluxes) s).2 = after_validate ex s.
Proof.
  unfold validate, load_example_file, run, bind, alloc, log, ret, deref, lift,
    after_validate.
  simpl. destruct (decide (fluxes = fresh (dom (heap s)))) as [-> | Hne].
  - rewrite lookup_insert_eq. simpl. rewrite lookup_insert_eq. reflexivity.
  - rewrite lookup_insert_ne by done.
    destruct (heap s !! fluxes); simpl; [| reflexivity].
    rewrite lookup_insert_eq. reflexivity.
Qed.

Lemma validate_result ex check fluxes s :
  run (validate ex check fluxes) s =
  ((run (validate ex check fluxes) s).1, after_validate ex s).
Proof. rewrite <- (validate_state ex check fluxes s). by destruct (run _ s). Qed.

Lemma allsky_longwave_returns : (run allsky_longwave init).1 = inr 5.
Proof. vm_compute. reflexivity. Qed.

Lemma allsky_shortwave_returns :
  exists fluxes, (run allsky_shortwave allsky_state_lw).1 = inr fluxes.
Proof. eexists. vm_compute. reflexivity. Qed.

(** The all-sky notebook stops after its longwave half when a longwave
    assertion fails, and runs to its end otherwise. *)
Lemma all_sky_trace :
  trace_of all_sky = trace allsky_state_lw \/ trace_of all_sky = trace allsky_state_sw.
Proof.
  unfold trace_of, all_sky.
  rewrite run_bind, (run_fst _ _ _ allsky_longwave_returns).
  unfold allsky_validate_lw. rewrite run_bind, validate_result.
  fold allsky_state_lw.
  destruct (run (validate REF_LW_NO_AEROSOL check_lw 5) _).1 as [e | []].
  - by left.
  - right. destruct allsky_shortwave_returns as [fluxes Hf].
    rewrite run_bind, (run_fst _ _ _ Hf).
    unfold allsky_validate_sw. rewrite validate_result. reflexivity.
Qed.

(** The quick start runs to its end, whatever the numbers are, and these are
    its calls. *)
Lemma quick_start_completes : (run quick_start init).1 = inr 23.
Proof. vm_compute. reflexivity. Qed.

Lemma quick_start_trace :
  trace_of quick_start =
  [LoadCloudOptics LW_BND; LoadGasOptics LW_G256;
   LoadCloudOptics SW_BND; LoadGasOptics SW_G224;
   Profiles 0; SetItem 0 "co2"; SetItem 0 "ch4"; SetItem 0 "n2o";
   SetItem 0 "n2"; SetItem 0 "o2"; SetItem 0 "co";
   Clouds 1; DatasetMerge 0 1 2;
   GasOptics LW_G256 2 ABSORPTION 3; SetItem 3 "surface_emissivity";
   Solve 3 {["tau"; "layer_source"; "level_source"; "surface_source";
             "surface_emissivity"]};
   CloudOptics LW_BND 2 ABSORPTION 5; AddTo 5 3 false;
   Solve 3 {["tau"; "layer_source"; "level_source"; "surface_source";
             "surface_emissivity"]};
   CloudOptics SW_BND 2 TWO_STREAM 7; GasOptics SW_G224 2 TWO_STREAM 8;
   AddTo 7 8 true; SetItem 8 "surface_albedo"; SetItem 8 "mu0";
   Solve 8 {["tau"; "ssa"; "g"; "toa_source"; "level_source"; "surface_source";
             "surface_albedo"; "mu0"]};
   CloudOptics SW_BND 2 TWO_STREAM 10; GasOptics SW_G224 2 TWO_STREAM 11;
   AddTo 10 11 true; NewDataset 12 {["surface_albedo"; "mu0"]};
   XrMerge [11; 12] 13;
   Solve 13 {["tau"; "ssa"; "g"; "toa_source"; "level_source"; "surface_source";
              "surface_albedo"; "mu0"]};
   Profiles 15; SetItem 15 "co2"; SetItem 15 "ch4"; SetItem 15 "n2o";
   SetItem 15 "n2"; SetItem 15 "o2"; SetItem 15 "co";
   Clouds 16; DatasetMerge 15 16 17; Chunk 17 18;
   CloudOptics SW_BND 18 TWO_STREAM 19; GasOptics SW_G224 18 TWO_STREAM 20;
   AddTo 19 20 true; NewDataset 21 {["surface_albedo"; "mu0"]};
   XrMerge [20; 21] 22;
   Solve 22 {["tau"; "ssa"; "g"; "toa_source"; "level_source"; "surface_source";
              "surface_albedo"; "mu0"]}].
Proof. vm_compute. reflexivity. Qed.

(** The calls of the all-sky notebook when its longwave assertions hold. *)
Lemma all_sky_full_trace :
  trace allsky_state_sw =
  [LoadCloudOptics LW_BND; LoadGasOptics LW_G256;
   Profiles 0; SetItem 0 "co2"; SetItem 0 "ch4"; SetItem 0 "n2o";
   SetItem 0 "n2"; SetItem 0 "o2"; SetItem 0 "co";
   Clouds 1; DatasetMerge 0 1 2;
   GasOptics LW_G256 2 ABSORPTION 3; SetItem 3 "surface_emissivity";
   CloudOptics LW_BND 2 ABSORPTION 4; AddTo 4 3 false;
   Solve 3 {["tau"; "layer_source"; "level_source"; "surface_source";
             "surface_emissivity"]};
   LoadRef REF_LW_NO_AEROSOL 6;
   LoadCloudOptics SW_BND; LoadGasOptics SW_G224;
   Profiles 7; SetItem 7 "co2"; SetItem 7 "ch4"; SetItem 7 "n2o";
   SetItem 7 "n2"; SetItem 7 "o2"; SetItem 7 "co";
   Clouds 8; DatasetMerge 7 8 9;
   GasOptics SW_G224 9 TWO_STREAM 10; CloudOptics SW_BND 9 TWO_STREAM 11;
   AddTo 11 10 true;
   SetItem 10 "surface_albedo_direct"; SetItem 10 "surface_albedo_diffuse";
   SetItem 10 "mu0";
   Solve 10 {["tau"; "ssa"; "g"; "toa_source"; "level_source"; "surface_source";
              "surface_albedo_direct"; "surface_albedo_diffuse"; "mu0"]};
   LoadRef REF_SW_NO_AEROSOL 13].
Proof. vm_compute. reflexivity. Qed.

Lemma notebooks_always ok :
  always ok [] (trace_of quick_start) = true ->
  always ok [] (trace allsky_state_lw) = true ->
  always ok [] (trace allsky_state_sw) = true ->
  forall tr, tr = trace_of quick_start \/ tr = trace_of all_sky ->
  forall i e, tr !! i = Some e -> ok (take i tr) e = true.
Proof.
  intros Hq Hlw Hsw tr [-> | ->] i e Hi.
  - apply (always_lookup ok _ [] Hq i e Hi).
  - destruct all_sky_trace as [Ht | Ht]; rewrite Ht in *.
    + apply (always_lookup ok _ [] Hlw i e Hi).
    + apply (always_lookup ok _ [] Hsw i e Hi).
Qed.

(** C5 (amended).  In both notebooks every call comes after what it depends
    on: optics are computed with an optics object loaded before and from an
    atmosphere synthesized before; [add_to] always merges a cloud-optics
    result into a gas-optics result, both computed before, never the
    reverse; every [rte_solve] call is given a dataset of gas optical
    properties that already holds its boundary conditions
    ([surface_emissivity] for a longwave problem; [mu0] and the surface
    albedo for a shortwave one); reference data are loaded for comparison
    only after [rte_solve] has been called. *)
Theorem calls_follow_dependencies (tr : list event) :
  tr = trace_of quick_start \/ tr = trace_of all_sky ->
  forall i e, tr !! i = Some e -> event_ok (take i tr) e = true.
Proof.
  apply notebooks_always; vm_compute; reflexivity.
Qed.

(** C7.  [add_to] takes the [delta_scale] flag, and in both notebooks every
    call of [add_to] passes [delta_scale=True] exactly when its argument is
    the two-stream result of the shortwave gas optics; on the absorption
    result of the longwave gas optics the flag is left at its default,
    [False]. *)
Theorem delta_scale_only_shortwave (tr : list event) :
  tr = trace_of quick_start \/ tr = trace_of all_sky ->
  forall i cloud gas delta_scale,
    tr !! i = Some (AddTo cloud gas delta_scale) ->
    exists f,
      (gas_problem (take i tr) gas = Some (f, TWO_STREAM) /\
       gas_band f = Shortwave /\ delta_scale = true) \/
      (gas_problem (take i tr) gas = Some (f, ABSORPTION) /\
       gas_band f = Longwave /\ delta_scale = false).
Proof.
  intros Hnb i cloud gas delta_scale Hi.
  assert (delta_scale_ok (take i tr) (AddTo cloud gas delta_scale) = true) as H.
  { apply (notebooks_always delta_scale_ok);
      [vm_compute; reflexivity | vm_compute; reflexivity | vm_compute; reflexivity
      | exact Hnb | exact Hi]. }
  simpl in H. destruct (gas_problem (take i tr) gas) as [[f []] |]; [| | done].
  - apply andb_true_iff in H as [Hb Hd]. apply bool_decide_eq_true in Hb.
    apply negb_true_iff in Hd. exists f. right. done.
  - apply andb_true_iff in H as [Hb Hd]. apply bool_decide_eq_true in Hb.
    exists f. left. done.
Qed.

End Proofs.

(** * The statements on small inputs *)

Lemma example_comparable_lw :
  Forall (comparable (example_lw_fluxes 400 300) (example_lw_reference 400 300) 1 1)
    lw_fields.
Proof.
  repeat constructor; eexists _, _; repeat split; vm_compute; reflexivity.
Qed.

Lemma example_comparable_sw :
  Forall (comparable (example_sw_fluxes 100 900 800) (example_sw_reference 100 900 800) 1 1)
    sw_fields.
Proof.
  repeat constructor; eexists _, _; repeat split; vm_compute; reflexivity.
Qed.

Lemma example_close_lw :
  Forall (close_to_reference (example_lw_fluxes 400 300) (example_lw_reference 400 300) 1 1)
    lw_fields.
Proof.
  repeat constructor; intros [| c] [| l] Hc Hl; try lia; vm_compute; reflexivity.
Qed.

Lemma example_close_sw :
  Forall (close_to_reference (example_sw_fluxes 100 900 800)
            (example_sw_reference 100 900 800) 1 1) sw_fields.
Proof.
  repeat constructor; intros [| c] [| l] Hc Hl; try lia; vm_compute; reflexivity.
Qed.

(** Fluxes equal to their reference pass both comparisons. *)
Lemma validation_iff_isclose_witness :
  check_lw (example_lw_fluxes 400 300) (example_lw_reference 400 300) = inr tt /\
  check_sw (example_sw_fluxes 100 900 800) (example_sw_reference 100 900 800) = inr tt.
Proof.
  pose proof (validation_iff_isclose _ _ _ _ 1 1
                example_comparable_lw example_comparable_sw) as (Hlw & _ & Hsw & _).
  split.
  - apply Hlw, example_close_lw.
  - apply Hsw, example_close_sw.
Defined.

(** An upward flux of 400.001 against a reference of 400 passes the longwave
    comparison, although it is 1e-3 away: [1e-5 * 400] is within the
    tolerance [np.isclose] grants. *)
Lemma validation_not_absolute_tolerance :
  check_lw (example_lw_fluxes 400.001 300) (example_lw_reference 400 300) = inr tt /\
  ~ Forall (within_tolerance (example_lw_fluxes 400.001 300)
              (example_lw_reference 400 300) 1 1) lw_fields.
Proof.
  split; [vm_compute; reflexivity |].
  intros H. apply Forall_cons in H as [H _].
  specialize (H 0 0 (Nat.lt_0_succ 0) (Nat.lt_0_succ 0)).
  vm_compute in H. discriminate H.
Qed.

(** The first [rte_solve] call of the quick start comes with
    [surface_emissivity] set. *)
Lemma calls_follow_dependencies_witness :
  exists vars,
    trace_of (quick_start (N := example_numerics)) !! 15 = Some (Solve 3 vars) /\
    event_ok (take 15 (trace_of (quick_start (N := example_numerics))))
      (Solve 3 vars) = true.
Proof.
  eexists. split; [vm_compute; reflexivity |].
  apply (calls_follow_dependencies (N := example_numerics) _ (or_introl eq_refl) 15).
  vm_compute. reflexivity.
Defined.

(** The quick start's shortwave [add_to] is the 22nd call. *)
Lemma delta_scale_only_shortwave_witness :
  exists f,
    (gas_problem (take 21 (trace_of (quick_start (N := example_numerics)))) 8
       = Some (f, TWO_STREAM) /\ gas_band f = Shortwave /\ true = true) \/
    (gas_problem (take 21 (trace_of (quick_start (N := example_numerics)))) 8
       = Some (f, ABSORPTION) /\ gas_band f = Longwave /\ true = false).
Proof.
  apply (delta_scale_only_shortwave (N := example_numerics) _ (or_introl eq_refl) 21 7 8 true).
  vm_compute. reflexivity.
Defined.

(** The longwave calculation of the all-sky notebook sets
    [surface_emissivity] (its 13th call) before it computes the cloud optics
    (its 14th): the steps are not in the fixed order.  And in the quick
    start's shortwave calculation the cloud optics that [add_to] merges are
    computed before the gas optics they are merged into. *)
Lemma steps_not_in_fixed_order :
  ~ fixed_linear_order (trace_of (allsky_longwave (N := example_numerics))) /\
  trace_of (quick_start (N := example_numerics)) !! 19
    = Some (CloudOptics SW_BND 2 TWO_STREAM 7) /\
  trace_of (quick_start (N := example_numerics)) !! 20
    = Some (GasOptics SW_G224 2 TWO_STREAM 8) /\
  trace_of (quick_start (N := example_numerics)) !! 21
    = Some (AddTo 7 8 true).
Proof.
  split; [| repeat split; vm_compute; reflexivity].
  intros H.
  specialize (H 12 13 (SetItem 3 "surface_emissivity") (CloudOptics LW_BND 2 ABSORPTION 4)).
  assert (4 <= 3) as Hle; [| lia].
  apply H; [lia | vm_compute; reflexivity | vm_compute; reflexivity].
Qed.


(** * Further properties of the notebooks' code *)

(** ** Binary64 facts behind [np.isclose] *)

Lemma SFcompare_refl s : s <> S754_nan -> SFcompare s s = Some Eq.
Proof.
  destruct s as [sg | sg | | sg m e]; intros H; try done; simpl.
  - by destruct sg.
  - rewrite Z.compare_refl, Pos.compare_refl. by destruct sg.
Qed.

Lemma is_nan_Prim2SF x : PrimFloat.is_nan x = true <-> Prim2SF x = S754_nan.
Proof.
  unfold PrimFloat.is_nan. rewrite FloatAxioms.eqb_spec. unfold SFeqb. split.
  - intros H. destruct (Prim2SF x) as [sg | sg | | sg m e] eqn:E; [| | done |];
      rewrite SFcompare_refl in H by done; discriminate H.
  - intros ->. reflexivity.
Qed.

Lemma isclose_nan_l x y rtol atol :
  PrimFloat.is_nan x = true -> isclose x y rtol atol = false.
Proof.
  intros H%is_nan_Prim2SF. unfold isclose.
  rewrite FloatAxioms.eqb_spec, leb_spec, abs_spec, sub_spec, H.
  unfold SF64sub, SFsub. simpl. reflexivity.
Qed.

Lemma isclose_nan_r x y rtol atol :
  PrimFloat.is_nan y = true -> isclose x y rtol atol = false.
Proof.
  intros H. unfold isclose, isfinite. rewrite H. simpl. rewrite andb_false_r. simpl.
  apply is_nan_Prim2SF in H. rewrite FloatAxioms.eqb_spec, H. unfold SFeqb.
  by destruct (Prim2SF x).
Qed.

(** A number is close to itself, whatever the tolerances and also when it is
    infinite; NaN is not. *)
Lemma isclose_refl x rtol atol :
  isclose x x rtol atol = negb (PrimFloat.is_nan x).
Proof.
  destruct (PrimFloat.is_nan x) eqn:H.
  - by apply isclose_nan_l.
  - unfold isclose. unfold PrimFloat.is_nan in H. apply negb_false_iff in H.
    rewrite H. apply orb_true_r.
Qed.

(** ** The comparison cells *)

Lemma nan_not_close fluxes ref_data ncol nlev field :
  has_nan fluxes ref_data ncol nlev field ->
  ~ close_to_reference fluxes ref_data ncol nlev field.
Proof.
  intros (c & l & Hc & Hl & Hnan) Hclose. specialize (Hclose c l Hc Hl).
  destruct Hnan as [H | H].
  - rewrite isclose_nan_l in Hclose by exact H. discriminate Hclose.
  - rewrite isclose_nan_r in Hclose by exact H. discriminate Hclose.
Qed.

Lemma assert_all_nan fluxes ref_data ncol nlev fields :
  Forall (comparable fluxes ref_data ncol nlev) fields ->
  Exists (has_nan fluxes ref_data ncol nlev) fields ->
  assert_all fields fluxes ref_data = inl AssertionError.
Proof.
  intros Hc Hnan. destruct (assert_all_spec _ _ _ _ _ Hc) as [Hiff [Hok | Hfail]];
    [| exact Hfail].
  exfalso. apply Hiff in Hok. apply Exists_exists in Hnan as (field & Hin & Hf).
  rewrite Forall_forall in Hok. exact (nan_not_close _ _ _ _ _ Hf (Hok field Hin)).
Qed.

(** X1.  A NaN anywhere in a compared field, in the computed fluxes or in the
    reference, makes the comparison cell raise [AssertionError]:
    [np.isclose] is called with its default [equal_nan=False], so not even a
    NaN against a NaN passes. *)
Theorem nan_fails_validation (lw_fluxes lw_ref sw_fluxes sw_ref : Dataset)
    (ncol nlev : nat) :
  Forall (comparable lw_fluxes lw_ref ncol nlev) lw_fields ->
  Forall (comparable sw_fluxes sw_ref ncol nlev) sw_fields ->
  (Exists (has_nan lw_fluxes lw_ref ncol nlev) lw_fields ->
   check_lw lw_fluxes lw_ref = inl AssertionError) /\
  (Exists (has_nan sw_fluxes sw_ref ncol nlev) sw_fields ->
   check_sw sw_fluxes sw_ref = inl AssertionError).
Proof.
  intros Hlw Hsw. rewrite check_lw_assert_all, check_sw_assert_all.
  split; intros H; by eapply assert_all_nan.
Qed.

Lemma transposed_copy_comparable fluxes ref_data ncol nlev field :
  transposed_copy fluxes ref_data ncol nlev field ->
  comparable fluxes ref_data ncol nlev field.
Proof.
  intros (a & Ha & Hb & Hs). exists a, (T a). repeat split; try done.
  simpl. by rewrite Hs.
Qed.

Lemma transposed_copy_close fluxes ref_data ncol nlev field :
  transposed_copy fluxes ref_data ncol nlev field ->
  close_to_reference fluxes ref_data ncol nlev field <->
  no_nan fluxes ncol nlev field.
Proof.
  intros (a & Ha & Hb & Hs). unfold close_to_reference, no_nan, entry.
  rewrite Ha, Hb. simpl.
  split; intros H c l Hc Hl; specialize (H c l Hc Hl).
  - rewrite isclose_refl in H. by apply negb_true_iff in H.
  - rewrite isclose_refl. by apply negb_true_iff.
Qed.

Lemma assert_all_transposed_copy fluxes ref_data ncol nlev fields :
  Forall (transposed_copy fluxes ref_data ncol nlev) fields ->
  assert_all fields fluxes ref_data = inr tt <->
  Forall (no_nan fluxes ncol nlev) fields.
Proof.
  intros Hcopy.
  assert (Forall (comparable fluxes ref_data ncol nlev) fields) as Hc.
  { eapply Forall_impl; [exact Hcopy |]. apply transposed_copy_comparable. }
  destruct (assert_all_spec _ _ _ _ _ Hc) as [-> _].
  rewrite !Forall_forall. split; intros H field Hin.
  - apply (transposed_copy_close fluxes ref_data); [| by apply H].
    rewrite Forall_forall in Hcopy. by apply Hcopy.
  - apply (transposed_copy_close fluxes ref_data); [| by apply H].
    rewrite Forall_forall in Hcopy. by apply Hcopy.
Qed.

(** X2.  When the reference arrays are the computed fields themselves,
    stored transposed, the comparison cells succeed exactly when no computed
    entry is NaN: the transposition [.T] of the cells undoes the layout of
    the reference, equal entries pass whatever their size (also infinite
    ones), and a NaN fails even against itself. *)
Theorem exact_reference_passes_iff_no_nan
    (lw_fluxes lw_ref sw_fluxes sw_ref : Dataset) (ncol nlev : nat) :
  Forall (transposed_copy lw_fluxes lw_ref ncol nlev) lw_fields ->
  Forall (transposed_copy sw_fluxes sw_ref ncol nlev) sw_fields ->
  (check_lw lw_fluxes lw_ref = inr tt <-> Forall (no_nan lw_fluxes ncol nlev) lw_fields) /\
  (check_sw sw_fluxes sw_ref = inr tt <-> Forall (no_nan sw_fluxes ncol nlev) sw_fields).
Proof.
  intros Hlw Hsw. rewrite check_lw_assert_all, check_sw_assert_all.
  split; by apply assert_all_transposed_copy.
Qed.

Lemma broadcast_shapes_one_site n m : broadcast_shapes [n; m] [1; m] = Some [n; m].
Proof.
  unfold broadcast_shapes. simpl. rewrite broadcast_dim_same.
  unfold broadcast_dim. repeat case_decide; subst; try reflexivity; congruence.
Qed.

Lemma operand_index_one_site m c l :
  l < m -> operand_index [1; m] [c; l] = [0; l].
Proof.
  intros Hl. unfold operand_index. simpl.
  repeat case_decide; simpl; repeat f_equal; lia.
Qed.

Lemma assert_isclose_single_site fluxes ref_data ncol nlev field :
  single_site fluxes ref_data ncol nlev field ->
  (assert_isclose fluxes ref_data field.1 field.2 = inr tt <->
     close_to_single_site fluxes ref_data ncol nlev field) /\
  (assert_isclose fluxes ref_data field.1 field.2 = inr tt \/
   assert_isclose fluxes ref_data field.1 field.2 = inl AssertionError).
Proof.
  intros (a & b & Ha & Hb & Hsa & Hsb).
  unfold assert_isclose, getitem, close_to_single_site, entry.
  rewrite Ha, Hb. simpl. unfold np_isclose. simpl. rewrite Hsa, Hsb. simpl.
  rewrite broadcast_shapes_one_site. simpl. unfold np_all. simpl bshape. simpl bitem.
  destruct (forallb _ _) eqn:Hall; simpl.
  - split; [| by left]. split; [intros _ | done].
    intros c l Hc Hl. rewrite forallb_forall in Hall.
    specialize (Hall [c; l]). rewrite in_indices2 in Hall.
    rewrite operand_index_same2, operand_index_one_site in Hall by done.
    apply Hall. eauto.
  - split; [| by right]. split; [done |]. intros Hclose. exfalso.
    apply not_true_iff_false in Hall. apply Hall.
    apply forallb_forall. intros idx (c & l & -> & Hc & Hl)%in_indices2.
    rewrite operand_index_same2, operand_index_one_site by done. by apply Hclose.
Qed.

Lemma assert_all_single_site fluxes ref_data ncol nlev fields :
  Forall (single_site fluxes ref_data ncol nlev) fields ->
  assert_all fields fluxes ref_data = inr tt <->
  Forall (close_to_single_site fluxes ref_data ncol nlev) fields.
Proof.
  induction 1 as [| [name ref_name] rest Hc Hrest IH]; simpl.
  - split; [constructor | done].
  - destruct (assert_isclose_single_site _ _ _ _ _ Hc) as [Hiff Hcases]. simpl in *.
    destruct Hcases as [Hok | Hfail].
    + rewrite Hok. simpl. rewrite IH. split.
      * intros ?. constructor; [by apply Hiff | done].
      * by inversion 1.
    + rewrite Hfail. simpl. split; [done |].
      inversion 1 as [| ?? Hclose]; subst. apply Hiff in Hclose. congruence.
Qed.

(** X3.  The cells do not check that the reference has as many columns as
    the computed fluxes: against reference arrays of one site ([nlev] by 1)
    [np.isclose] broadcasts, and the cells succeed exactly when every
    computed column is close to that one reference column. *)
Theorem single_site_reference_is_broadcast
    (lw_fluxes lw_ref sw_fluxes sw_ref : Dataset) (ncol nlev : nat) :
  Forall (single_site lw_fluxes lw_ref ncol nlev) lw_fields ->
  Forall (single_site sw_fluxes sw_ref ncol nlev) sw_fields ->
  (check_lw lw_fluxes lw_ref = inr tt <->
     Forall (close_to_single_site lw_fluxes lw_ref ncol nlev) lw_fields) /\
  (check_sw sw_fluxes sw_ref = inr tt <->
     Forall (close_to_single_site sw_fluxes sw_ref ncol nlev) sw_fields).
Proof.
  intros Hlw Hsw. rewrite check_lw_assert_all, check_sw_assert_all.
  split; by apply assert_all_single_site.
Qed.

Lemma broadcast_shapes_incompatible n m n' m' :
  incompatible n m n' m' -> broadcast_shapes [n; m] [n'; m'] = None.
Proof.
  intros H. unfold broadcast_shapes. simpl. unfold broadcast_dim.
  destruct H as [(? & ? & ?) | (? & ? & ?)]; repeat case_decide; subst; try done.
Qed.

Lemma assert_isclose_incompatible fluxes ref_data name ref_name a b n m n' m' :
  fluxes !! name = Some a -> ref_data !! ref_name = Some b ->
  shape (values a) = [n; m] -> shape (values b) = [m'; n'] ->
  incompatible n m n' m' ->
  assert_isclose fluxes ref_data name ref_name = inl ValueError.
Proof.
  intros Ha Hb Hsa Hsb Hinc. unfold assert_isclose, getitem.
  rewrite Ha, Hb. simpl. unfold np_isclose. simpl. rewrite Hsa, Hsb. simpl.
  by rewrite (broadcast_shapes_incompatible _ _ _ _ Hinc).
Qed.

(** X4.  When the upward flux is [n] by [m] and its reference, once
    transposed, is [n'] by [m'], with two lengths of an axis that differ and
    are both not 1, the comparison cell raises [ValueError] (from
    [np.isclose]) and not [AssertionError], whatever the numbers are. *)
Theorem mismatched_reference_raises_ValueError
    (lw_fluxes lw_ref sw_fluxes sw_ref : Dataset) (a b a' b' : DataArray)
    (n m n' m' : nat) :
  lw_fluxes !! "lw_flux_up" = Some a -> lw_ref !! "lw_flux_up" = Some b ->
  sw_fluxes !! "sw_flux_up" = Some a' -> sw_ref !! "sw_flux_up" = Some b' ->
  shape (values a) = [n; m] -> shape (values b) = [m'; n'] ->
  shape (values a') = [n; m] -> shape (values b') = [m'; n'] ->
  incompatible n m n' m' ->
  check_lw lw_fluxes lw_ref = inl ValueError /\
  check_sw sw_fluxes sw_ref = inl ValueError.
Proof.
  intros Ha Hb Ha' Hb' Hsa Hsb Hsa' Hsb' Hinc. unfold check_lw, check_sw.
  rewrite (assert_isclose_incompatible _ _ _ _ _ _ _ _ _ _ Ha Hb Hsa Hsb Hinc).
  rewrite (assert_isclose_incompatible _ _ _ _ _ _ _ _ _ _ Ha' Hb' Hsa' Hsb' Hinc).
  done.
Qed.

Lemma getitem_same_values d d' name :
  same_values d d' ->
  dim_size d name = None -> dim_size d' name = None ->
  match getitem d name, getitem d' name with
  | inr a, inr a' => values a = values a'
  | inl e, inl e' => e = e'
  | _, _ => False
  end.
Proof.
  intros H Hd Hd'. specialize (H name). unfold getitem. rewrite Hd, Hd'.
  destruct (d !! name), (d' !! name); simpl in H; try done. by injection H.
Qed.

Lemma assert_isclose_same_values f f' r r' name ref_name :
  same_values f f' -> same_values r r' ->
  dim_size f name = None -> dim_size f' name = None ->
  dim_size r ref_name = None -> dim_size r' ref_name = None ->
  assert_isclose f r name ref_name = assert_isclose f' r' name ref_name.
Proof.
  intros Hf Hr Hdf Hdf' Hdr Hdr'. unfold assert_isclose.
  pose proof (getitem_same_values f f' name Hf Hdf Hdf') as H1.
  pose proof (getitem_same_values r r' ref_name Hr Hdr Hdr') as H2.
  destruct (getitem f name) as [e | a], (getitem f' name) as [e' | a']; try done.
  - simpl. by rewrite H1.
  - simpl. destruct (getitem r ref_name) as [e | b], (getitem r' ref_name) as [e' | b'];
      try done.
    + simpl. by rewrite H2.
    + simpl. unfold T. simpl. by rewrite H1, H2.
Qed.

Lemma no_dimension_named_elem names d name :
  no_dimension_named names d -> name ∈ names -> dim_size d name = None.
Proof. unfold no_dimension_named. rewrite Forall_forall. auto. Qed.

(** X5.  As long as no dimension bears the name of a compared field (xarray
    answers [ds[name]] for the name of a dimension with the index of that
    dimension), the outcome of the comparison cells depends on the arrays
    only, not on the names of their dimensions: fluxes on a [column]
    dimension compare with a reference on a [site] dimension as they would
    with one on [column]; the same result or the same error. *)
Theorem validation_ignores_dimension_names (f f' r r' : Dataset) :
  same_values f f' -> same_values r r' ->
  no_dimension_named ((lw_fields ++ sw_fields).*1) f ->
  no_dimension_named ((lw_fields ++ sw_fields).*1) f' ->
  no_dimension_named ((lw_fields ++ sw_fields).*2) r ->
  no_dimension_named ((lw_fields ++ sw_fields).*2) r' ->
  check_lw f r = check_lw f' r' /\ check_sw f r = check_sw f' r'.
Proof.
  intros Hf Hr Hdf Hdf' Hdr Hdr'. unfold check_lw, check_sw.
  assert (forall name ref_name, (name, ref_name) ∈ lw_fields ++ sw_fields ->
            assert_isclose f r name ref_name = assert_isclose f' r' name ref_name)
    as Heq.
  { intros name ref_name Hin. apply assert_isclose_same_values; try assumption;
      (eapply no_dimension_named_elem; [eassumption |]);
      (apply list_elem_of_fmap; exists (name, ref_name);
       split; [reflexivity | exact Hin]). }
  rewrite !Heq by (simpl; set_solver).
  done.
Qed.

(** X6.  Fluxes without columns, or without levels, pass both comparison
    cells whatever they are compared with: [.all()] of an empty array is
    true. *)
Theorem empty_fluxes_pass (lw_fluxes lw_ref sw_fluxes sw_ref : Dataset)
    (ncol nlev : nat) :
  Forall (comparable lw_fluxes lw_ref ncol nlev) lw_fields ->
  Forall (comparable sw_fluxes sw_ref ncol nlev) sw_fields ->
  ncol = 0 \/ nlev = 0 ->
  check_lw lw_fluxes lw_ref = inr tt /\ check_sw sw_fluxes sw_ref = inr tt.
Proof.
  intros Hlw Hsw Hempty. rewrite check_lw_assert_all, check_sw_assert_all.
  split.
  - apply (assert_all_spec _ _ _ _ _ Hlw). apply Forall_forall.
    intros field _ c l Hc Hl. lia.
  - apply (assert_all_spec _ _ _ _ _ Hsw). apply Forall_forall.
    intros field _ c l Hc Hl. lia.
Qed.

(** ** Boundary conditions by assignment and by [xr.merge] *)

Lemma size_conflict_nil_r ps : size_conflict ps [] = false.
Proof. unfold size_conflict. induction ps as [| p ps IH]; simpl; done. Qed.

Lemma merge_datasets_scalars (d : Dataset) (albedo mu0 : float) :
  d !! "surface_albedo" = None -> d !! "mu0" = None ->
  merge_datasets d
    (list_to_map (prod_map id scalar <$> [("surface_albedo", albedo); ("mu0", mu0)])) =
  inr (<["mu0" := scalar mu0]> (<["surface_albedo" := scalar albedo]> d)).
Proof.
  intros Ha Hm.
  set (b := list_to_map (prod_map id scalar <$> [("surface_albedo", albedo); ("mu0", mu0)])
         : Dataset).
  assert (all_dim_sizes b = []) as Hsz by (vm_compute; reflexivity).
  assert (b = <["surface_albedo" := scalar albedo]> (<["mu0" := scalar mu0]> ∅)) as Hb
    by reflexivity.
  unfold merge_datasets. rewrite Hsz, size_conflict_nil_r. clear Hsz. rewrite Hb. clear Hb b.
  match goal with |- (if ?c then _ else _) = _ => replace c with true end.
  - f_equal. apply map_eq. intros k.
    destruct (decide (k = "mu0")) as [-> | Hk1].
    + rewrite lookup_insert_eq. rewrite lookup_union_r by done.
      rewrite lookup_insert_ne by done. by rewrite lookup_insert_eq.
    + rewrite lookup_insert_ne by done.
      destruct (decide (k = "surface_albedo")) as [-> | Hk2].
      * rewrite lookup_insert_eq. rewrite lookup_union_r by done.
        by rewrite lookup_insert_eq.
      * rewrite lookup_insert_ne by done. rewrite lookup_union_l; [done |].
        rewrite !lookup_insert_ne by done. apply lookup_empty.
  - symmetry. apply forallb_forall. intros [k da] Hin.
    apply list_elem_of_In, elem_of_map_to_list in Hin. simpl.
    rewrite !lookup_insert_ne; [by rewrite lookup_empty | ..]; intros <-; congruence.
Qed.

Lemma xr_merge_run x y a b d s :
  heap s !! x = Some a -> heap s !! y = Some b -> merge_datasets a b = inr d ->
  run (xr_merge x y) s =
  (inr (fresh (dom (heap s))),
   State (<[fresh (dom (heap s)) := d]> (heap s))
         (trace s ++ [XrMerge [x; y] (fresh (dom (heap s)))])).
Proof.
  intros Hx Hy Hd. unfold xr_merge, run, bind, deref. rewrite Hx, Hy.
  unfold lift. rewrite Hd. reflexivity.
Qed.

(** X7.  The quick start supplies the shortwave boundary conditions in two
    ways.  On optical properties that hold neither [surface_albedo] nor
    [mu0], the two assignments and the [xr.merge] with
    [xr.Dataset(data_vars={"surface_albedo": ..., "mu0": ...})] build the same
    dataset; the assignments change the optical properties where they are,
    the merge returns a new dataset and leaves the optical properties
    without boundary conditions. *)
Theorem boundary_by_merge_or_assignment (s : state) (optical_props : loc)
    (d : Dataset) (albedo mu0 : float) :
  heap s !! optical_props = Some d ->
  d !! "surface_albedo" = None -> d !! "mu0" = None ->
  let with_boundary :=
    <["mu0" := scalar mu0]> (<["surface_albedo" := scalar albedo]> d) in
  (exists s1,
     run (let* _ := setitem optical_props "surface_albedo" (scalar albedo) in
          setitem optical_props "mu0" (scalar mu0)) s = (inr tt, s1) /\
     heap s1 !! optical_props = Some with_boundary) /\
  (exists problem s2,
     run (let* boundary := xr_Dataset [("surface_albedo", albedo); ("mu0", mu0)] in
          xr_merge optical_props boundary) s = (inr problem, s2) /\
     heap s2 !! problem = Some with_boundary /\
     problem <> optical_props /\
     heap s2 !! optical_props = Some d).
Proof.
  intros Hd Ha Hm with_boundary. split.
  - eexists. rewrite run_bind.
    rewrite (setitem_scalar _ _ _ _ _ Hd). split.
    + apply setitem_scalar. simpl. apply lookup_insert_eq.
    + simpl. rewrite insert_insert_eq. apply lookup_insert_eq.
  - set (b := fresh (dom (heap s))).
    assert (optical_props <> b) as Hne.
    { intros ->. subst b. rewrite fresh_heap in Hd. discriminate Hd. }
    set (bc := list_to_map (prod_map id scalar <$>
                 [("surface_albedo", albedo); ("mu0", mu0)]) : Dataset).
    set (s' := State (<[b := bc]> (heap s)) (trace s ++ [NewDataset b (dom bc)])).
    assert (run (xr_Dataset [("surface_albedo", albedo); ("mu0", mu0)]) s = (inr b, s'))
      as Hnew by reflexivity.
    assert (heap s' !! optical_props = Some d) as Hd'.
    { simpl. rewrite lookup_insert_ne by done. exact Hd. }
    assert (heap s' !! b = Some bc) as Hb by apply lookup_insert_eq.
    assert (fresh (dom (heap s')) <> optical_props) as Hne'.
    { intros Heq. rewrite <- Heq in Hd'. rewrite fresh_heap in Hd'. discriminate Hd'. }
    eexists _, _. split.
    + rewrite run_bind, Hnew.
      apply (xr_merge_run _ _ _ _ _ _ Hd' Hb (merge_datasets_scalars d albedo mu0 Ha Hm)).
    + split; [apply lookup_insert_eq |]. split; [exact Hne' |].
      cbn [heap]. rewrite lookup_insert_ne by exact Hne'. exact Hd'.
Qed.

(** ** The operands of [add_to] *)

Section Pairing.

Context {N : Numerics}.

(** X8.  In both notebooks every [add_to] call combines cloud optics and gas
    optics that were computed from the same atmosphere object and for the
    same band: longwave cloud optics are never added to shortwave gas
    optics, nor the optics of one atmosphere to those of another. *)
Theorem add_to_pairs_same_band_and_atmosphere (tr : list event) :
  tr = trace_of quick_start \/ tr = trace_of all_sky ->
  forall i cloud gas delta_scale,
    tr !! i = Some (AddTo cloud gas delta_scale) ->
    exists fc fg atm,
      cloud_call (take i tr) cloud = Some (fc, atm) /\
      gas_call (take i tr) gas = Some (fg, atm) /\
      cloud_band fc = gas_band fg.
Proof.
  intros Hnb i cloud gas delta_scale Hi.
  assert (same_atmosphere_ok (take i tr) (AddTo cloud gas delta_scale) = true) as H.
  { apply (notebooks_always same_atmosphere_ok);
      [vm_compute; reflexivity | vm_compute; reflexivity | vm_compute; reflexivity
      | exact Hnb | exact Hi]. }
  simpl in H.
  destruct (cloud_call (take i tr) cloud) as [[fc ac] |]; [| discriminate H].
  destruct (gas_call (take i tr) gas) as [[fg ag] |]; [| discriminate H].
  apply andb_true_iff in H as [Hb Ha]. apply bool_decide_eq_true in Hb, Ha. subst ag.
  exists fc, fg, ac. done.
Qed.

End Pairing.

(** ** The further properties on small inputs *)

Lemma one_entry_comparable_lw up down up' down' :
  Forall (comparable (example_lw_fluxes up down) (example_lw_reference up' down') 1 1)
    lw_fields.
Proof.
  repeat constructor; eexists _, _; repeat split; vm_compute; reflexivity.
Qed.

Lemma one_entry_comparable_sw up down dir up' down' dir' :
  Forall (comparable (example_sw_fluxes up down dir)
            (example_sw_reference up' down' dir') 1 1) sw_fields.
Proof.
  repeat constructor; eexists _, _; repeat split; vm_compute; reflexivity.
Qed.

(** A NaN in the computed upward longwave flux, or in the reference for the
    downward shortwave flux, fails the cell. *)
Lemma nan_fails_validation_witness :
  check_lw (example_lw_fluxes PrimFloat.nan 300) (example_lw_reference 400 300)
    = inl AssertionError /\
  check_sw (example_sw_fluxes 100 900 800) (example_sw_reference 100 PrimFloat.nan 800)
    = inl AssertionError.
Proof.
  pose proof (nan_fails_validation _ _ _ _ 1 1
                (one_entry_comparable_lw PrimFloat.nan 300 400 300)
                (one_entry_comparable_sw 100 900 800 100 PrimFloat.nan 800))
    as [Hlw Hsw].
  split.
  - apply Hlw. apply Exists_cons_hd. exists 0, 0.
    split; [lia |]. split; [lia |]. left. vm_compute. reflexivity.
  - apply Hsw. apply Exists_cons_tl, Exists_cons_hd. exists 0, 0.
    split; [lia |]. split; [lia |]. right. vm_compute. reflexivity.
Defined.

(** A field of two columns by three levels passes against its own
    transpose. *)
Lemma exact_reference_passes_iff_no_nan_witness :
  check_lw (named lw_names example_grid) (named lw_ref_names (T example_grid)) = inr tt /\
  check_sw (named sw_names example_grid) (named sw_ref_names (T example_grid)) = inr tt.
Proof.
  assert (Forall (transposed_copy (named lw_names example_grid)
                    (named lw_ref_names (T example_grid)) 2 3) lw_fields) as Hlw.
  { repeat constructor; exists example_grid; repeat split; vm_compute; reflexivity. }
  assert (Forall (transposed_copy (named sw_names example_grid)
                    (named sw_ref_names (T example_grid)) 2 3) sw_fields) as Hsw.
  { repeat constructor; exists example_grid; repeat split; vm_compute; reflexivity. }
  destruct (exact_reference_passes_iff_no_nan _ _ _ _ 2 3 Hlw Hsw) as [[_ H1] [_ H2]].
  split; [apply H1 | apply H2]; repeat constructor; intros c l Hc Hl;
    (assert (c = 0 \/ c = 1) as [-> | ->] by lia);
    (assert (l = 0 \/ l = 1 \/ l = 2) as [-> | [-> | ->]] by lia);
    vm_compute; reflexivity.
Defined.

(** Two equal columns pass against a reference of one site. *)
Lemma single_site_reference_is_broadcast_witness :
  check_lw (named lw_names example_uniform) (named lw_ref_names example_site) = inr tt /\
  check_sw (named sw_names example_uniform) (named sw_ref_names example_site) = inr tt.
Proof.
  assert (Forall (single_site (named lw_names example_uniform)
                    (named lw_ref_names example_site) 2 3) lw_fields) as Hlw.
  { repeat constructor; exists example_uniform, example_site;
      repeat split; vm_compute; reflexivity. }
  assert (Forall (single_site (named sw_names example_uniform)
                    (named sw_ref_names example_site) 2 3) sw_fields) as Hsw.
  { repeat constructor; exists example_uniform, example_site;
      repeat split; vm_compute; reflexivity. }
  destruct (single_site_reference_is_broadcast _ _ _ _ 2 3 Hlw Hsw) as [[_ H1] [_ H2]].
  split; [apply H1 | apply H2]; repeat constructor; intros c l Hc Hl;
    (assert (c = 0 \/ c = 1) as [-> | ->] by lia);
    (assert (l = 0 \/ l = 1 \/ l = 2) as [-> | [-> | ->]] by lia);
    vm_compute; reflexivity.
Defined.

(** A reference laid out like the fluxes, two columns by three levels, is
    three by two once transposed: the cell raises [ValueError]. *)
Lemma mismatched_reference_raises_ValueError_witness :
  check_lw (named lw_names example_grid) (named lw_ref_names example_grid)
    = inl ValueError /\
  check_sw (named sw_names example_grid) (named sw_ref_names example_grid)
    = inl ValueError.
Proof.
  apply (mismatched_reference_raises_ValueError _ _ _ _
           example_grid example_grid example_grid example_grid 2 3 3 2);
    try (vm_compute; reflexivity).
  left. lia.
Defined.

Lemma named_same_values names da da' :
  values da = values da' -> same_values (named names da) (named names da').
Proof.
  intros H name. unfold named. induction names as [| n names IH]; simpl.
  - by rewrite !lookup_empty.
  - destruct (decide (n = name)) as [-> | Hne].
    + rewrite !lookup_insert_eq. simpl. by rewrite H.
    + rewrite !lookup_insert_ne by done. exact IH.
Qed.

(** The reference on a [site] dimension gives what the one on [column]
    gives. *)
Lemma validation_ignores_dimension_names_witness :
  check_lw (named lw_names example_grid) (named lw_ref_names (T example_grid))
  = check_lw (named lw_names example_grid) (named lw_ref_names (T example_grid_site)) /\
  check_sw (named sw_names example_grid) (named sw_ref_names (T example_grid))
  = check_sw (named sw_names example_grid) (named sw_ref_names (T example_grid_site)).
Proof.
  split.
  - apply (validation_ignores_dimension_names
             (named lw_names example_grid) (named lw_names example_grid)
             (named lw_ref_names (T example_grid))
             (named lw_ref_names (T example_grid_site)));
      try (apply named_same_values; reflexivity);
      repeat (constructor; [vm_compute; reflexivity |]); constructor.
  - apply (validation_ignores_dimension_names
             (named sw_names example_grid) (named sw_names example_grid)
             (named sw_ref_names (T example_grid))
             (named sw_ref_names (T example_grid_site)));
      try (apply named_same_values; reflexivity);
      repeat (constructor; [vm_compute; reflexivity |]); constructor.
Defined.

(** Why no dimension may bear the name of a compared field: fluxes that
    lack [lw_flux_up] as a variable but have it as a dimension answer
    [fluxes["lw_flux_up"]] with the index of that dimension, which does not
    broadcast against the reference, where their twin on [column] raises
    [KeyError]. *)
Lemma dimension_named_like_a_field :
  same_values {[ "lw_flux_down" := example_grid_misnamed ]}
    {[ "lw_flux_down" := example_grid ]} /\
  check_lw {[ "lw_flux_down" := example_grid_misnamed ]}
    (named lw_ref_names (T example_grid)) = inl ValueError /\
  check_lw {[ "lw_flux_down" := example_grid ]}
    (named lw_ref_names (T example_grid)) = inl (KeyError "lw_flux_up").
Proof.
  split; [| split; vm_compute; reflexivity].
  intros name. destruct (decide (name = "lw_flux_down")) as [-> | Hne].
  - rewrite !lookup_singleton_eq. reflexivity.
  - rewrite !lookup_singleton_ne by congruence. reflexivity.
Qed.

(** Fluxes of no column pass. *)
Lemma empty_fluxes_pass_witness :
  check_lw (named lw_names example_no_column) (named lw_ref_names (T example_no_column))
    = inr tt /\
  check_sw (named sw_names example_no_column) (named sw_ref_names (T example_no_column))
    = inr tt.
Proof.
  apply (empty_fluxes_pass _ _ _ _ 0 3); [| | left; reflexivity];
    repeat constructor; exists example_no_column, (T example_no_column);
    repeat split; vm_compute; reflexivity.
Defined.

(** On the longwave problem at address 1 of [example_state], which holds no
    shortwave boundary condition. *)
Lemma boundary_by_merge_or_assignment_witness :
  (exists s1,
     run (let* _ := setitem 1 "surface_albedo" (scalar 0.06) in
          setitem 1 "mu0" (scalar 0.86)) example_state = (inr tt, s1) /\
     heap s1 !! 1 =
       Some (<["mu0" := scalar 0.86]> (<["surface_albedo" := scalar 0.06]> example_problem))) /\
  (exists problem s2,
     run (let* boundary := xr_Dataset [("surface_albedo", 0.06); ("mu0", 0.86)]%float in
          xr_merge 1 boundary) example_state = (inr problem, s2) /\
     heap s2 !! problem =
       Some (<["mu0" := scalar 0.86]> (<["surface_albedo" := scalar 0.06]> example_problem)) /\
     problem <> 1 /\
     heap s2 !! 1 = Some example_problem).
Proof.
  apply (boundary_by_merge_or_assignment example_state 1 example_problem 0.06 0.86);
    vm_compute; reflexivity.
Defined.

(** The quick start's shortwave [add_to], its 22nd call. *)
Lemma add_to_pairs_same_band_and_atmosphere_witness :
  exists fc fg atm,
    cloud_call (take 21 (trace_of (quick_start (N := example_numerics)))) 7
      = Some (fc, atm) /\
    gas_call (take 21 (trace_of (quick_start (N := example_numerics)))) 8
      = Some (fg, atm) /\
    cloud_band fc = gas_band fg.
Proof.
  apply (add_to_pairs_same_band_and_atmosphere (N := example_numerics) _
           (or_introl eq_refl) 21 7 8 true).
  vm_compute. reflexivity.
Defined.
